(** * ESG green-loan evaluator: a shallow embedding of the decision core

    The development follows [app.py] (the [GreenLoanContract] engine with
    its [BiologyValidator]) and the scoring helpers of [app_new.py].

    Number model.  Python's [float] is embedded as an exact rational
    ([Q]): literals denote the decimal written in the source, [+ - *] are
    exact, [/] raises [ZeroDivisionError] on a zero divisor, comparisons
    are the rational order, and [round(x, n)] rounds to [n] decimals with
    ties going to the even neighbour.  Binary rounding of IEEE doubles,
    infinities and NaN are outside the model; every concrete input used
    below is chosen so that the verdict does not hinge on them.

    The wall clock and the per-process string hash are inputs of the
    model (record [Host]). *)

From Stdlib Require Import ZArith QArith Qround Qminmax Lia Lqa.
From Stdlib Require Import Ascii String HexString DecimalString DecimalPos DecimalZ.
From stdpp Require Import gmap strings.

Local Open Scope Z_scope.
Local Open Scope Q_scope.

(** ** Python primitives used by the two scripts *)

Module Py.

Inductive exn : Type :=
  | ZeroDivisionError
  | KeyError (key : string).

Inductive result (A : Type) : Type :=
  | Ok (a : A)
  | Raise (e : exn).
Global Arguments Ok {A} a.
Global Arguments Raise {A} e.

Global Instance result_ret : MRet result := fun A a => Ok a.
Global Instance result_bind : MBind result := fun A B f m =>
  match m with
  | Ok a => f a
  | Raise e => Raise e
  end.

(** [x < y] on floats. *)
Definition Qltb (x y : Q) : bool := negb (Qle_bool y x).

(** [x / y]: true division, [ZeroDivisionError] when [y] is zero. *)
Definition div (x y : Q) : result Q :=
  if Qeq_bool y 0 then Raise ZeroDivisionError else Ok (x / y).

(** [max(a, b)] keeps its first argument unless the second is strictly
    greater; [min(a, b)] unless the second is strictly smaller. *)
Definition max (a b : Q) : Q := if Qltb a b then b else a.
Definition min (a b : Q) : Q := if Qltb b a then b else a.

(** Nearest integer, ties to even. *)
Definition round_half_even (x : Q) : Z :=
  let f := Qfloor x in
  match Qcompare (x - inject_Z f) (1 # 2) with
  | Lt => f
  | Eq => if Z.even f then f else (f + 1)%Z
  | Gt => (f + 1)%Z
  end.

(** [round(x, ndigits)] for a float [x] and [ndigits >= 0]. *)
Definition round (x : Q) (ndigits : nat) : Q :=
  let scale := (10 ^ Z.of_nat ndigits)%Z in
  Qmake (round_half_even (x * inject_Z scale)) (Z.to_pos scale).

(** [int(x)] truncates towards zero. *)
Definition int (x : Q) : Z := Z.quot (Qnum x) (Z.pos (Qden x)).

(** [str(n)] and [hex(n)] for an integer. *)
Definition str (n : Z) : string := NilZero.string_of_int (Z.to_int n).
Definition hex (n : Z) : string := HexString.of_Z n.

(** [s.lower()]: the ASCII letters are folded.  (No other code point
    lowers to a letter of the word the result is compared with.) *)
Definition ascii_lower (c : ascii) : ascii :=
  let n := nat_of_ascii c in
  if (65 <=? n)%nat && (n <=? 90)%nat then ascii_of_nat (n + 32) else c.

Fixpoint lower (s : string) : string :=
  match s with
  | EmptyString => EmptyString
  | String c s' => String (ascii_lower c) (lower s')
  end.

(** Values a [Dict[str, Any]] of evidence flags may hold. *)
Inductive object : Type :=
  | PyNone
  | PyBool (b : bool)
  | PyInt (n : Z)
  | PyFloat (x : Q)
  | PyStr (s : string).

(** Truth value of an object, as tested by [if]. *)
Definition truthy (o : object) : bool :=
  match o with
  | PyNone => false
  | PyBool b => b
  | PyInt n => negb (n =? 0)%Z
  | PyFloat x => negb (Qeq_bool x 0)
  | PyStr s => negb (String.eqb s "")
  end.

(** [o is False]: identity with the singleton [False]. *)
Definition is_False (o : object) : bool :=
  match o with
  | PyBool false => true
  | _ => false
  end.

(** [d.get(k, default)] and [d[k]]. *)
Definition get {V : Type} (d : gmap string V) (k : string) (dflt : V) : V :=
  default dflt (d !! k).

Definition getitem {V : Type} (d : gmap string V) (k : string) : result V :=
  match d !! k with
  | Some v => Ok v
  | None => Raise (KeyError k)
  end.

(** [s.replace(c, "")] for a one-character string [c]. *)
Fixpoint remove_char (c : ascii) (s : string) : string :=
  match s with
  | EmptyString => EmptyString
  | String a s' =>
      if Ascii.eqb a c then remove_char c s' else String a (remove_char c s')
  end.

(** [x in xs] for a list of strings. *)
Definition str_in (x : string) (xs : list string) : bool :=
  existsb (String.eqb x) xs.

End Py.

Import Py.

(** ** app.py *)

Module App.

Record BorrowerApplication : Type := mkBorrowerApplication {
  company_id : string;
  loan_requested : Q;
  reported_credits : Q;
  verified_credits : Q;
  registry_source : string;
  project_type : string;
  meta : gmap string Py.object
}.

Record Decision : Type := mkDecision {
  status : string;
  reason : string;
  interest_rate_apr : Q;
  required_credits : Q;
  greenwashing_score : Q;
  audit_ref : string
}.

Definition DEFAULT_REQUIRED_CREDITS_PER_1K : Q := 10.0.
Definition GREENWASH_GAP_TOLERANCE : Q := 0.10.

Definition REGISTRY_QUALITY_WEIGHTS : gmap string Q :=
  <["Gold Standard" := 0.95]> (<["Verra" := 0.90]> (<["Other" := 0.80]> ∅)).

Definition PROJECT_RISK_WEIGHTS : gmap string Q :=
  <["Reforestation" := 0.90]> (<["Renewable" := 0.95]>
    (<["Cookstove" := 0.85]> (<["Other" := 0.80]> ∅))).

Definition BASE_RATE : Q := 0.06.
Definition PENALTY_RATE_STEP : Q := 0.03.

(** The dict built by [greenwash_signals]: always these four keys. *)
Record Signals : Type := mkSignals {
  gap : Q;
  registry_quality : Q;
  project_quality : Q;
  biology_confidence : Q
}.

(** One entry of [audit_log]. *)
Record AuditRecord : Type := mkAuditRecord {
  ref : string;
  rec_company_id : string;
  decision : string;
  signals : Signals;
  timestamp : Z;
  hash_like : string
}.

(** What one call of [_log] reads from its environment: the two
    successive [time.time()] values and the interpreter's [hash] on the
    pair [(company_id, decision)]. *)
Record Host : Type := mkHost {
  time_ref : Q;
  time_stamp : Q;
  hash_pair : string -> string -> Z
}.

Module BiologyValidator.

Definition score (app : BorrowerApplication) : Q :=
  let score := 1.0 in
  let score :=
    if String.eqb (Py.lower (project_type app)) "reforestation"
    then score * 0.95 else score in
  let score :=
    if Py.truthy (Py.get (meta app) "has_recent_remote_sensing" (PyBool false))
    then score * 1.00 else score * 0.90 in
  let score :=
    if Py.is_False (Py.get (meta app) "soil_tests_ok" (PyBool true))
    then score * 0.80 else score in
  Py.max 0.0 (Py.min 1.0 score).

End BiologyValidator.

Module GreenLoanContract.

Record t : Type := mk {
  required_credits_per_1k : Q;
  gap_tolerance : Q;
  audit_log : list AuditRecord
}.

(** [__init__] with its two defaulted parameters. *)
Definition init (required_credits gap_tolerance : Q) : t :=
  mk required_credits gap_tolerance [].

Definition default : t :=
  init DEFAULT_REQUIRED_CREDITS_PER_1K GREENWASH_GAP_TOLERANCE.

Definition required_credits (self : t) (loan_requested : Q) : Q :=
  (loan_requested / 1000) * required_credits_per_1k self.

Definition greenwash_signals (self : t) (app : BorrowerApplication)
  : result Signals :=
  gap ← (if Py.Qltb 0 (verified_credits app)
         then q ← Py.div (reported_credits app - verified_credits app)
                         (verified_credits app);
              mret (Py.max 0.0 q)
         else mret 1.0);
  other_reg ← Py.getitem REGISTRY_QUALITY_WEIGHTS "Other";
  let reg_q := Py.get REGISTRY_QUALITY_WEIGHTS (registry_source app) other_reg in
  other_proj ← Py.getitem PROJECT_RISK_WEIGHTS "Other";
  let proj_r := Py.get PROJECT_RISK_WEIGHTS (project_type app) other_proj in
  let bio_q := BiologyValidator.score app in
  mret (mkSignals gap reg_q proj_r bio_q).

Definition greenwashing_score (self : t) (signals : Signals) : result Q :=
  q ← Py.div (gap signals) (gap_tolerance self);
  let gap_component := Py.min 1.0 q in
  let quality_component :=
    1.0 - 0.5 * (registry_quality signals + project_quality signals) in
  let bio_component := 1.0 - biology_confidence signals in
  let raw := 0.5 * gap_component + 0.3 * quality_component + 0.2 * bio_component in
  mret (Py.round (100.0 * Py.max 0.0 (Py.min 1.0 raw)) 2).

Definition price (base_rate score : Q) : Q :=
  if Py.Qltb score 25 then base_rate
  else if Py.Qltb score 50 then base_rate + PENALTY_RATE_STEP
  else if Py.Qltb score 75 then base_rate + 2 * PENALTY_RATE_STEP
  else base_rate + 3 * PENALTY_RATE_STEP.

Definition _log (h : Host) (self : t) (app : BorrowerApplication)
    (signals : Signals) (decision : string) : string * t :=
  let ref := "evt_" +:+ Py.str (Py.int (time_ref h * 1000)) +:+ "_" +:+ company_id app in
  let entry :=
    mkAuditRecord ref (company_id app) decision signals
      (Py.int (time_stamp h))
      (Py.hex (Z.abs (hash_pair h (company_id app) decision) mod 2 ^ 64)) in
  (ref, mk (required_credits_per_1k self) (gap_tolerance self)
           (audit_log self ++ [entry])).

Definition evaluate (h : Host) (self : t) (app : BorrowerApplication)
  : result (Decision * t) :=
  let req := required_credits self (loan_requested app) in
  signals ← greenwash_signals self app;
  score ← greenwashing_score self signals;
  let has_sufficient_verified := Qle_bool req (verified_credits app) in
  let mismatch_ok := Qle_bool (gap signals) (gap_tolerance self) in
  if has_sufficient_verified && mismatch_ok && Py.Qltb score 50 then
    let rate := price BASE_RATE score in
    let '(ref, self') := _log h self app signals "APPROVED" in
    mret (mkDecision "APPROVED" "Credits sufficient and clean signals"
                     rate req score ref, self')
  else if has_sufficient_verified && Py.Qltb score 75 then
    let rate := price BASE_RATE score in
    let '(ref, self') := _log h self app signals "APPROVED_WITH_PENALTY" in
    mret (mkDecision "APPROVED_WITH_PENALTY"
                     "Credits sufficient with moderate greenwashing risk"
                     rate req score ref, self')
  else
    let '(ref, self') := _log h self app signals "REJECTED" in
    mret (mkDecision "REJECTED"
                     "Insufficient verified credits or high greenwashing risk"
                     0.0 req score ref, self').

End GreenLoanContract.

End App.

(** ** app_new.py *)

Module AppNew.

Definition REGISTRY_WEIGHTS : gmap string Q :=
  <["Gold Standard" := 1.00]> (<["Verra" := 0.95]>
    (<["Other" := 0.80]> (<["None" := 0.60]> ∅))).

Definition PROJECT_WEIGHTS : gmap string Q :=
  <["Reforestation" := 1.00]> (<["Renewable" := 0.90]>
    (<["Cookstove" := 0.85]> (<["Other" := 0.80]> (<["None" := 0.70]> ∅)))).

Definition required_credits_eur (loan_eur rule_per_1000 : Q) : Q :=
  Py.round ((loan_eur / 1000.0) * rule_per_1000) 2.

(** The local [gap_ratio] of [greenwashing_score], after the clamp of a
    negative [verified]. *)
Definition gap_ratio (verified reported : Q) : result Q :=
  let verified := if Py.Qltb verified 0 then 0 else verified in
  let gap := Py.max (reported - verified) 0 in
  if Py.Qltb 0 reported
  then Py.div gap (Py.max reported 1e-6)
  else mret 0.0.

Definition greenwashing_score (verified reported : Q)
    (registry project : string) (remote soil : bool) : result Q :=
  let base := 5.0 in
  gap_ratio ← gap_ratio verified reported;
  let base := base + 2.0 * Py.max 0 (1 - Py.min gap_ratio 1) in
  let base := base + 1.2 * Py.get REGISTRY_WEIGHTS registry 0.8 in
  let base := base + 1.0 * Py.get PROJECT_WEIGHTS project 0.8 in
  let base := if remote then base + 0.5 else base in
  let base := if soil then base + 0.3 else base in
  mret (Py.round (Py.max 0.0 (Py.min 10.0 (base - 2.5))) 1).

Definition apr_from_score (base_apr score : Q) (registry : string)
    (remote soil : bool) : Q :=
  let apr := base_apr in
  let apr :=
    if Py.str_in registry ["Gold Standard"; "Verra"] then apr - 0.25 else apr in
  let apr := if remote then apr - 0.10 else apr in
  let apr := if soil then apr - 0.10 else apr in
  let apr := if Qle_bool 8.5 score then apr - 0.25 else apr in
  let apr := if Py.Qltb score 5.0 then apr + 0.50 else apr in
  Py.round (Py.max 0.0 apr) 2.

(** [fmt] is the interpreter's rendering of a float inside an f-string. *)
Definition decision_text (fmt : Q -> string) (verified needed : Q)
  : string * string :=
  if Qle_bool needed verified
  then ("APPROVED", "Credits sufficient and clean signals")
  else
    let short := Py.round (needed - verified) 2 in
    ("REJECTED", "Insufficient verified credits. Shortfall " +:+ fmt short).

(** [now] is the value of [time.time()]. *)
Definition new_audit_ref (now : Q) (company : string) : string :=
  "evt_" +:+ Py.str (Py.int (now * 1000)) +:+ "_" +:+ Py.remove_char " " company.



End AppNew.

Import App.

Import GreenLoanContract.

(** ** Derived forms used in the statements *)

(** The value [greenwashing_score] computes once the division went
    through. *)
Definition score_of (tol : Q) (s : Signals) : Q :=
  let gap_component := Py.min 1.0 (gap s / tol) in
  let quality_component :=
    1.0 - 0.5 * (registry_quality s + project_quality s) in
  let bio_component := 1.0 - biology_confidence s in
  let raw := 0.5 * gap_component + 0.3 * quality_component + 0.2 * bio_component in
  Py.round (100.0 * Py.max 0.0 (Py.min 1.0 raw)) 2.

(** The three exits of [evaluate], by the two tests it makes. *)
Definition outcome (h : Host) (self : t) (app : BorrowerApplication)
    (s : Signals) (score : Q) : Decision * t :=
  let req := required_credits self (loan_requested app) in
  let has_sufficient_verified := Qle_bool req (verified_credits app) in
  let mismatch_ok := Qle_bool (gap s) (gap_tolerance self) in
  if has_sufficient_verified && mismatch_ok && Py.Qltb score 50 then
    (mkDecision "APPROVED" "Credits sufficient and clean signals"
                (price BASE_RATE score) req score
                (fst (_log h self app s "APPROVED")),
     snd (_log h self app s "APPROVED"))
  else if has_sufficient_verified && Py.Qltb score 75 then
    (mkDecision "APPROVED_WITH_PENALTY"
                "Credits sufficient with moderate greenwashing risk"
                (price BASE_RATE score) req score
                (fst (_log h self app s "APPROVED_WITH_PENALTY")),
     snd (_log h self app s "APPROVED_WITH_PENALTY"))
  else
    (mkDecision "REJECTED"
                "Insufficient verified credits or high greenwashing risk"
                0.0 req score
                (fst (_log h self app s "REJECTED")),
     snd (_log h self app s "REJECTED")).

(** The score as the specification writes it:
    [round(100 * clamp(0.5*min(1, gap/tol) + 0.3*(1 - 0.5*(rq + pq))
    + 0.2*(1 - bio), 0, 1), 2)], with the mathematical [min] and [max]. *)
Definition clamp (x lo hi : Q) : Q := Qmax lo (Qmin hi x).

Definition spec_score (tol : Q) (s : Signals) : Q :=
  Py.round
    (100 * clamp (0.5 * Qmin 1 (gap s / tol)
                  + 0.3 * (1 - 0.5 * (registry_quality s + project_quality s))
                  + 0.2 * (1 - biology_confidence s)) 0 1) 2.

(** The ordering APPROVED > APPROVED_WITH_PENALTY > REJECTED. *)
Definition favorability (status : string) : nat :=
  if String.eqb status "APPROVED" then 2
  else if String.eqb status "APPROVED_WITH_PENALTY" then 1
  else 0.

(** The same application with another amount of verified credits. *)
Definition with_verified (app : BorrowerApplication) (v : Q) : BorrowerApplication :=
  mkBorrowerApplication (company_id app) (loan_requested app)
    (reported_credits app) v (registry_source app) (project_type app) (meta app).

(** *** Sample inputs *)

Definition flags (remote soil_ok : bool) : gmap string Py.object :=
  <["has_recent_remote_sensing" := PyBool remote]>
    (<["soil_tests_ok" := PyBool soil_ok]> ∅).

Definition host0 : Host :=
  mkHost 1700000000.123 1700000000.5 (fun _ _ => (-12345)%Z).

(** The two presets of the sidebar. *)
Definition maersk : BorrowerApplication :=
  mkBorrowerApplication "Maersk" 1000.0 3000.0 3500.0 "Other" "Other"
    (flags false true).

Definition demo_forest : BorrowerApplication :=
  mkBorrowerApplication "Demo Forest Ltd" 250000.0 500.0 200.0
    "Other" "Reforestation" (flags false false).

(** Nothing verified, a hundred credits reported. *)
Definition unverified : BorrowerApplication :=
  mkBorrowerApplication "DemCo" 1000.0 100.0 0.0 "Other" "Other"
    (flags false true).

(** Nothing reported and nothing verified. *)
Definition blank : BorrowerApplication :=
  mkBorrowerApplication "DemCo" 0.0 0.0 0.0 "Other" "Other" (flags false true).

(** Registry and project type outside the two tables. *)
Definition unlisted : BorrowerApplication :=
  mkBorrowerApplication "DemCo" 1000.0 1000.0 800.0 "ACR" "Biochar"
    (flags true true).

(** ** The page of app.py: the session state across reruns *)

Module AppPage.

(** One row of [st.session_state.runs]. *)
Record Run : Type := mkRun {
  run_company : string;
  run_loan_eur : Q;
  run_reported : Q;
  run_verified : Q;
  run_registry : string;
  run_project : string;
  run_remote : bool;
  run_soil_ok : bool;
  run_decision : string;
  run_apr : Q;
  run_required_credits : Q;
  run_greenwashing_score : Q;
  run_audit_ref : string
}.

(** The values of the form widgets at submission. *)
Record Form : Type := mkForm {
  company : string;
  loan : Q;
  reported : Q;
  verified : Q;
  registry : string;
  project : string;
  remote : bool;
  soil_ok : bool
}.

Record Session : Type := mkSession {
  contract : GreenLoanContract.t;
  runs : list Run
}.

(** First run of the script: both keys are created. *)
Definition new_session : Session := mkSession GreenLoanContract.default [].

Definition app_obj (f : Form) : BorrowerApplication :=
  mkBorrowerApplication (company f) (loan f) (reported f) (verified f)
    (registry f) (project f)
    (<["has_recent_remote_sensing" := PyBool (remote f)]>
       (<["soil_tests_ok" := PyBool (soil_ok f)]> ∅)).

(** The [if submitted:] block. *)
Definition submit (h : Host) (st : Session) (f : Form) : result Session :=
  r ← GreenLoanContract.evaluate h (contract st) (app_obj f);
  let d := fst r in
  mret (mkSession (snd r)
          (runs st ++
           [mkRun (company f) (loan f) (reported f) (verified f) (registry f)
                  (project f) (remote f) (soil_ok f) (status d)
                  (interest_rate_apr d) (App.required_credits d)
                  (App.greenwashing_score d) (audit_ref d)])).

(** The "Clear history" button, shown while [runs] is not empty. *)
Definition clear_history (st : Session) : Session :=
  mkSession (contract st) [].

(** The sessions the page can be in. *)
Inductive reachable : Session -> Prop :=
  | reach_new : reachable new_session
  | reach_submit (h : Host) (st st' : Session) (f : Form) :
      reachable st -> submit h st f = Ok st' -> reachable st'
  | reach_clear (st : Session) :
      reachable st -> runs st <> [] -> reachable (clear_history st).

End AppPage.

(** ** Facts about the Python primitives *)

Lemma Qltb_lt (x y : Q) : Py.Qltb x y = true <-> x < y.
Proof.
  unfold Py.Qltb. rewrite negb_true_iff, <- not_true_iff_false, Qle_bool_iff.
  split; [apply Qnot_le_lt | apply Qlt_not_le].
Qed.

Lemma Qltb_ge (x y : Q) : Py.Qltb x y = false <-> y <= x.
Proof.
  unfold Py.Qltb. rewrite negb_false_iff. apply Qle_bool_iff.
Qed.

Lemma max_Qmax (a b : Q) : Py.max a b == Qmax a b.
Proof.
  unfold Py.max. destruct (Py.Qltb a b) eqn:E.
  - apply Qltb_lt in E. symmetry. apply Q.max_r. lra.
  - apply Qltb_ge in E. symmetry. apply Q.max_l. lra.
Qed.

Lemma min_Qmin (a b : Q) : Py.min a b == Qmin a b.
Proof.
  unfold Py.min. destruct (Py.Qltb b a) eqn:E.
  - apply Qltb_lt in E. symmetry. apply Q.min_r. lra.
  - apply Qltb_ge in E. symmetry. apply Q.min_l. lra.
Qed.

Lemma div_ok (x y : Q) : ~ y == 0 -> Py.div x y = Ok (x / y).
Proof.
  intros H. unfold Py.div. destruct (Qeq_bool y 0) eqn:E; [| reflexivity].
  apply Qeq_bool_iff in E. contradiction.
Qed.

Lemma div_zero (x y : Q) : y == 0 -> Py.div x y = Raise ZeroDivisionError.
Proof.
  intros H. unfold Py.div. apply Qeq_bool_iff in H. now rewrite H.
Qed.

Lemma round_half_even_floor (x : Q) :
  (Qfloor x <= Py.round_half_even x <= Qfloor x + 1)%Z.
Proof.
  unfold Py.round_half_even.
  destruct (Qcompare _ _); [destruct (Z.even _) | |]; lia.
Qed.

Lemma round_half_even_lb (k : Z) (x : Q) :
  inject_Z k <= x -> (k <= Py.round_half_even x)%Z.
Proof.
  intros H. apply Qfloor_resp_le in H. rewrite Qfloor_Z in H.
  pose proof (round_half_even_floor x). lia.
Qed.

Lemma round_half_even_ub (k : Z) (x : Q) :
  x <= inject_Z k -> (Py.round_half_even x <= k)%Z.
Proof.
  intros H. pose proof (Qfloor_resp_le _ _ H) as Hf. rewrite Qfloor_Z in Hf.
  pose proof (round_half_even_floor x) as Hb.
  destruct (Z.eq_dec (Qfloor x) k) as [E | NE]; [| lia].
  unfold Py.round_half_even.
  assert (Hx : x - inject_Z (Qfloor x) < 1 # 2).
  { rewrite E. lra. }
  rewrite Qlt_alt in Hx. rewrite Hx. lia.
Qed.

Ltac compare_facts :=
  repeat match goal with
         | H : Qcompare _ _ = Eq |- _ => apply Qeq_alt in H
         | H : Qcompare _ _ = Lt |- _ => apply Qlt_alt in H
         | H : Qcompare _ _ = Gt |- _ => apply Qgt_alt in H
         end.

Lemma round_half_even_mono (x y : Q) :
  x <= y -> (Py.round_half_even x <= Py.round_half_even y)%Z.
Proof.
  intros H. pose proof (Qfloor_resp_le _ _ H) as Hf.
  pose proof (round_half_even_floor x) as Hx.
  pose proof (round_half_even_floor y) as Hy.
  destruct (Z.eq_dec (Qfloor x) (Qfloor y)) as [E | NE]; [| lia].
  clear Hx Hy Hf. unfold Py.round_half_even. rewrite <- E.
  destruct (Qcompare (x - _) _) eqn:Cx; destruct (Qcompare (y - _) _) eqn:Cy.
  all: try destruct (Z.even _); try lia.
  all: exfalso; compare_facts; lra.
Qed.

Lemma round_half_even_eq (x y : Q) :
  x == y -> Py.round_half_even x = Py.round_half_even y.
Proof.
  intros E. apply Z.le_antisymm; apply round_half_even_mono; rewrite E; apply Qle_refl.
Qed.

Lemma scale_pos (n : nat) : (0 < 10 ^ Z.of_nat n)%Z.
Proof. apply Z.pow_pos_nonneg; lia. Qed.

Lemma round_mono (x y : Q) (n : nat) : x <= y -> Py.round x n <= Py.round y n.
Proof.
  intros H. unfold Py.round, Qle. cbn [Qnum Qden].
  pose proof (scale_pos n) as Hs.
  apply Z.mul_le_mono_nonneg_r; [lia |].
  apply round_half_even_mono.
  apply Qmult_le_compat_r; [exact H |].
  rewrite <- (Zle_Qle 0). lia.
Qed.

Lemma round_eq (x y : Q) (n : nat) : x == y -> Py.round x n = Py.round y n.
Proof.
  intros E. unfold Py.round. f_equal. apply round_half_even_eq. now rewrite E.
Qed.

Lemma round_lb (k : Z) (x : Q) (n : nat) :
  inject_Z k <= x -> inject_Z k <= Py.round x n.
Proof.
  intros H. unfold Py.round, Qle. cbn [Qnum Qden inject_Z].
  pose proof (scale_pos n) as Hs.
  rewrite Z2Pos.id by exact Hs. rewrite Z.mul_1_r.
  apply round_half_even_lb. rewrite inject_Z_mult.
  apply Qmult_le_compat_r; [exact H |].
  rewrite <- (Zle_Qle 0). lia.
Qed.

Lemma round_ub (k : Z) (x : Q) (n : nat) :
  x <= inject_Z k -> Py.round x n <= inject_Z k.
Proof.
  intros H. unfold Py.round, Qle. cbn [Qnum Qden inject_Z].
  pose proof (scale_pos n) as Hs.
  rewrite Z2Pos.id by exact Hs. rewrite Z.mul_1_r.
  apply round_half_even_ub. rewrite inject_Z_mult.
  apply Qmult_le_compat_r; [exact H |].
  rewrite <- (Zle_Qle 0). lia.
Qed.


(** ** Facts about the engine *)

Lemma registry_weight_range (k : string) :
  0.80 <= Py.get REGISTRY_QUALITY_WEIGHTS k 0.80 <= 0.95.
Proof.
  unfold Py.get, REGISTRY_QUALITY_WEIGHTS.
  repeat (rewrite lookup_insert; case_decide; [cbn; lra |]).
  rewrite lookup_empty. cbn. lra.
Qed.

Lemma project_weight_range (k : string) :
  0.80 <= Py.get PROJECT_RISK_WEIGHTS k 0.80 <= 0.95.
Proof.
  unfold Py.get, PROJECT_RISK_WEIGHTS.
  repeat (rewrite lookup_insert; case_decide; [cbn; lra |]).
  rewrite lookup_empty. cbn. lra.
Qed.

Lemma max_spec (a b : Q) :
  (a < b /\ Py.max a b = b) \/ (b <= a /\ Py.max a b = a).
Proof.
  unfold Py.max. destruct (Py.Qltb a b) eqn:E;
    [apply Qltb_lt in E | apply Qltb_ge in E]; auto.
Qed.

Lemma min_spec (a b : Q) :
  (b < a /\ Py.min a b = b) \/ (a <= b /\ Py.min a b = a).
Proof.
  unfold Py.min. destruct (Py.Qltb b a) eqn:E;
    [apply Qltb_lt in E | apply Qltb_ge in E]; auto.
Qed.

Ltac py_minmax :=
  repeat match goal with
         | |- context [Py.min ?a ?b] =>
             let H := fresh "Hmin" in let E := fresh "E" in
             destruct (min_spec a b) as [[H E] | [H E]];
             rewrite E in *; clear E
         | |- context [Py.max ?a ?b] =>
             let H := fresh "Hmax" in let E := fresh "E" in
             destruct (max_spec a b) as [[H E] | [H E]];
             rewrite E in *; clear E
         end.

Lemma max_min_clamp (x : Q) : 0 <= Py.max 0.0 (Py.min 1.0 x) <= 1.
Proof. py_minmax; lra. Qed.

Lemma max_min_clamp_mono (x y : Q) :
  x <= y -> Py.max 0.0 (Py.min 1.0 x) <= Py.max 0.0 (Py.min 1.0 y).
Proof. intros H. py_minmax; lra. Qed.

Lemma bio_score_range (app : BorrowerApplication) :
  0 <= BiologyValidator.score app <= 1.
Proof. unfold BiologyValidator.score. apply max_min_clamp. Qed.

(** The gap ratio computed by [greenwash_signals]. *)
Lemma greenwash_signals_ok (self : t) (app : BorrowerApplication) :
  greenwash_signals self app =
  Ok (mkSignals
        (if Py.Qltb 0 (verified_credits app)
         then Py.max 0.0 ((reported_credits app - verified_credits app)
                          / verified_credits app)
         else 1.0)
        (Py.get REGISTRY_QUALITY_WEIGHTS (registry_source app) 0.80)
        (Py.get PROJECT_RISK_WEIGHTS (project_type app) 0.80)
        (BiologyValidator.score app)).
Proof.
  unfold greenwash_signals.
  destruct (Py.Qltb 0 (verified_credits app)) eqn:E.
  - apply Qltb_lt in E. rewrite div_ok by lra. reflexivity.
  - reflexivity.
Qed.

Lemma greenwashing_score_ok (self : t) (s : Signals) :
  ~ gap_tolerance self == 0 ->
  greenwashing_score self s = Ok (score_of (gap_tolerance self) s).
Proof.
  intros H. unfold greenwashing_score. rewrite div_ok by exact H. reflexivity.
Qed.

Lemma greenwashing_score_zero (self : t) (s : Signals) :
  gap_tolerance self == 0 ->
  greenwashing_score self s = Raise ZeroDivisionError.
Proof.
  intros H. unfold greenwashing_score. rewrite div_zero by exact H. reflexivity.
Qed.

Lemma score_of_range (tol : Q) (s : Signals) : 0 <= score_of tol s <= 100.
Proof.
  unfold score_of.
  match goal with
  | |- context [Py.max 0.0 (Py.min 1.0 ?r)] =>
      pose proof (max_min_clamp r) as Hc;
      generalize dependent (Py.max 0.0 (Py.min 1.0 r))
  end.
  intros c Hc. split.
  - apply (round_lb 0). unfold inject_Z. lra.
  - apply (round_ub 100). unfold inject_Z. lra.
Qed.

Lemma evaluate_outcome (h : Host) (self : t) (app : BorrowerApplication)
    (s : Signals) (score : Q) :
  greenwash_signals self app = Ok s ->
  greenwashing_score self s = Ok score ->
  evaluate h self app = Ok (outcome h self app s score).
Proof.
  intros Hs Hg. unfold evaluate, outcome. rewrite Hs. cbn [mbind result_bind].
  rewrite Hg. cbn [mbind result_bind].
  repeat match goal with
         | |- context [if ?b then _ else _] => destruct b
         end; reflexivity.
Qed.


(** ** The scenarios of the two presets *)

Example maersk_approved :
  exists d self',
    evaluate host0 default maersk = Ok (d, self') /\
    status d = "APPROVED" /\ interest_rate_apr d == 6 # 100 /\
    App.required_credits d == 10 /\ App.greenwashing_score d == 8 /\
    audit_ref d = "evt_1700000000123_Maersk" /\
    length (audit_log self') = 1%nat.
Proof.
  eexists _, _. split; [vm_compute; reflexivity |].
  repeat split.
Qed.

Example demo_forest_rejected :
  exists d self',
    evaluate host0 default demo_forest = Ok (d, self') /\
    status d = "REJECTED" /\ interest_rate_apr d == 0 /\
    App.required_credits d == 2500 /\ App.greenwashing_score d == 60.82.
Proof.
  eexists _, _. split; [vm_compute; reflexivity |].
  repeat split.
Qed.

Example unlisted_keys_fall_back :
  exists s,
    greenwash_signals default unlisted = Ok s /\
    registry_quality s = 0.80 /\ project_quality s = 0.80.
Proof. eexists. split; [apply greenwash_signals_ok |]. split; reflexivity. Qed.

(** ** The decision cascade *)

Ltac bool_facts :=
  repeat match goal with
         | H : Qle_bool _ _ = true |- _ => apply Qle_bool_iff in H
         | H : Qle_bool _ _ = false |- _ =>
             apply not_true_iff_false in H; rewrite Qle_bool_iff in H
         | H : Py.Qltb _ _ = true |- _ => apply Qltb_lt in H
         | H : Py.Qltb _ _ = false |- _ => apply Qltb_ge in H
         end.

Lemma default_tolerance_nonzero : ~ gap_tolerance default == 0.
Proof. intros H. discriminate H. Qed.

(** C1.  Whenever the score can be computed, [evaluate] returns a decision
    whose status is fixed by the priority cascade: APPROVED exactly when the
    verified credits reach the requirement, the gap is within tolerance and
    the score is below 50; otherwise APPROVED_WITH_PENALTY exactly when the
    credits are sufficient and the score is below 75; otherwise REJECTED.
    The status is one of these three strings, any approval needs sufficient
    credits and carries the priced rate, and REJECTED carries rate 0. *)
Theorem evaluate_status_cascade (h : Host) (self : t) (app : BorrowerApplication) :
  ~ gap_tolerance self == 0 ->
  exists s score d self',
    greenwash_signals self app = Ok s /\
    greenwashing_score self s = Ok score /\
    evaluate h self app = Ok (d, self') /\
    let sufficient :=
      required_credits self (loan_requested app) <= verified_credits app in
    let clean := sufficient /\ gap s <= gap_tolerance self /\ score < 50 in
    let moderate := sufficient /\ score < 75 in
    (status d = "APPROVED" <-> clean) /\
    (status d = "APPROVED_WITH_PENALTY" <-> ~ clean /\ moderate) /\
    (status d = "REJECTED" <-> ~ clean /\ ~ moderate) /\
    (status d = "APPROVED" \/ status d = "APPROVED_WITH_PENALTY"
     \/ status d = "REJECTED") /\
    (status d <> "REJECTED" -> sufficient) /\
    (status d <> "REJECTED" -> interest_rate_apr d = price BASE_RATE score) /\
    (status d = "REJECTED" -> interest_rate_apr d = 0.0) /\
    App.required_credits d = required_credits self (loan_requested app) /\
    App.greenwashing_score d = score.
Proof.
  intros Htol.
  pose proof (greenwash_signals_ok self app) as Hs.
  set (s := mkSignals _ _ _ _) in Hs.
  pose proof (greenwashing_score_ok self s Htol) as Hg.
  set (score := score_of _ _) in Hg.
  pose proof (evaluate_outcome h self app s score Hs Hg) as He.
  exists s, score, (fst (outcome h self app s score)),
         (snd (outcome h self app s score)).
  rewrite <- surjective_pairing.
  split; [exact Hs |]. split; [exact Hg |]. split; [exact He |].
  unfold outcome.
  destruct (Qle_bool (required_credits self (loan_requested app))
                     (verified_credits app)) eqn:E1;
    destruct (Qle_bool (gap s) (gap_tolerance self)) eqn:E2;
    destruct (Py.Qltb score 50) eqn:E3;
    destruct (Py.Qltb score 75) eqn:E4; cbn; bool_facts.
  all: repeat split; intros; try discriminate; try tauto; try lra.
  all: repeat match goal with H : _ /\ _ |- _ => destruct H end; lra.
Qed.

Lemma evaluate_status_cascade_witness :
  ~ gap_tolerance default == 0 /\
  exists d self',
    evaluate host0 default maersk = Ok (d, self') /\
    (status d = "APPROVED" \/ status d = "APPROVED_WITH_PENALTY"
     \/ status d = "REJECTED").
Proof.
  split; [exact default_tolerance_nonzero |].
  destruct (evaluate_status_cascade host0 default maersk default_tolerance_nonzero)
    as (s & score & d & self' & _ & _ & He & _ & _ & _ & Hst & _).
  exists d, self'. split; [exact He | exact Hst].
Defined.

(** ** The greenwashing score *)

Lemma max_Qmax_compat (a a' b b' : Q) :
  a == a' -> b == b' -> Py.max a b == Qmax a' b'.
Proof.
  intros Ha Hb. destruct (Q.max_spec a' b') as [[H E] | [H E]];
    destruct (max_spec a b) as [[H' E'] | [H' E']]; rewrite E'; lra.
Qed.

Lemma min_Qmin_compat (a a' b b' : Q) :
  a == a' -> b == b' -> Py.min a b == Qmin a' b'.
Proof.
  intros Ha Hb. destruct (Q.min_spec a' b') as [[H E] | [H E]];
    destruct (min_spec a b) as [[H' E'] | [H' E']]; rewrite E'; lra.
Qed.

Lemma score_of_spec (tol : Q) (s : Signals) : score_of tol s = spec_score tol s.
Proof.
  unfold score_of, spec_score, clamp. apply round_eq.
  apply Qmult_comp; [lra |].
  apply max_Qmax_compat; [lra |].
  apply min_Qmin_compat; [lra |].
  pose proof (min_Qmin_compat 1.0 1 (gap s / tol) (gap s / tol)) as E.
  lra.
Qed.

(** C2.  With a non-zero tolerance the score of any signal set is
    [round(100 * clamp(0.5*min(1, gap/tol) + 0.3*(1 - 0.5*(rq + pq))
    + 0.2*(1 - bio), 0, 1), 2)] and lies between 0 and 100, whatever the
    gap and the quality weights are. *)
Theorem greenwashing_score_formula (self : t) (s : Signals) :
  ~ gap_tolerance self == 0 ->
  exists v,
    greenwashing_score self s = Ok v /\
    v = spec_score (gap_tolerance self) s /\
    0 <= v <= 100.
Proof.
  intros Htol. exists (score_of (gap_tolerance self) s).
  split; [apply greenwashing_score_ok; exact Htol |].
  split; [apply score_of_spec | apply score_of_range].
Qed.

Lemma greenwashing_score_formula_witness :
  ~ gap_tolerance default == 0 /\
  exists v,
    greenwashing_score default (mkSignals 1.5 0.80 0.90 0.684) = Ok v /\
    v = spec_score (gap_tolerance default) (mkSignals 1.5 0.80 0.90 0.684) /\
    0 <= v <= 100.
Proof.
  split; [exact default_tolerance_nonzero |].
  apply (greenwashing_score_formula default). exact default_tolerance_nonzero.
Defined.

(** ** The gap ratio *)

(** C3.  [greenwash_signals] always returns, with gap
    [max(0, (reported - verified) / verified)] when some credits are
    verified and exactly [1.0] when none are; with nothing verified and a
    hundred reported the gap is [1.0], in the second script as well. *)
Theorem gap_ratio_convention :
  (forall (self : t) (app : BorrowerApplication),
     exists s,
       greenwash_signals self app = Ok s /\
       (0 < verified_credits app ->
        gap s == Qmax 0 ((reported_credits app - verified_credits app)
                         / verified_credits app)) /\
       (verified_credits app == 0 -> gap s = 1.0)) /\
  (exists s, greenwash_signals default unverified = Ok s /\ gap s = 1.0) /\
  (exists g, AppNew.gap_ratio 0 100 = Ok g /\ g == 1.0).
Proof.
  split; [| split].
  - intros self app. eexists. split; [apply greenwash_signals_ok |].
    cbn [gap]. split; intros H.
    + apply Qltb_lt in H. rewrite H. apply max_Qmax_compat; lra.
    + assert (E : Py.Qltb 0 (verified_credits app) = false).
      { apply Qltb_ge. rewrite H. apply Qle_refl. }
      rewrite E. reflexivity.
  - eexists. split; [apply greenwash_signals_ok | reflexivity].
  - eexists. split; [reflexivity | reflexivity].
Qed.

(** ** Required credits *)

Lemma div_thousand (x : Q) : x / 1000.0 == x / 1000.
Proof. unfold Qdiv. apply Qmult_comp; reflexivity. Qed.

(** C4, as stated, fails on the engine of [app.py]: for a loan of 0.25 the
    requirement is 0.0025, which is not its rounding to two decimals; and
    a negative configured rate makes the requirement decrease. *)
Lemma required_credits_not_rounded :
  (required_credits default 0.25 == 1 # 400 /\
   Py.round ((0.25 / 1000) * required_credits_per_1k default) 2 == 0 /\
   ~ required_credits default 0.25
     == Py.round ((0.25 / 1000) * required_credits_per_1k default) 2) /\
  (0 <= 1000 /\
   ~ required_credits (init (-10.0) 0.10) 0
     <= required_credits (init (-10.0) 0.10) 1000).
Proof.
  repeat split; try reflexivity; try (intros H; discriminate H).
  intros H. apply H. reflexivity.
Qed.

(** C4, amended.  With a non-negative configured rate the engine's
    requirement is [(L / 1000) * rate], unrounded; the helper of the second
    script returns that product rounded to two decimals.  Both are
    non-decreasing in the loan amount and give 0 for a loan of 0. *)
Theorem required_credits_monotone (self : t) (l1 l2 : Q) :
  0 <= required_credits_per_1k self ->
  let rate := required_credits_per_1k self in
  required_credits self l1 == (l1 / 1000) * rate /\
  (l1 <= l2 -> required_credits self l1 <= required_credits self l2) /\
  required_credits self 0 == 0 /\
  AppNew.required_credits_eur l1 rate = Py.round ((l1 / 1000) * rate) 2 /\
  (l1 <= l2 ->
   AppNew.required_credits_eur l1 rate <= AppNew.required_credits_eur l2 rate) /\
  AppNew.required_credits_eur 0 rate == 0 /\
  required_credits_per_1k default == 10.
Proof.
  intros Hr rate. unfold required_credits, AppNew.required_credits_eur.
  fold rate.
  assert (Hm : forall a b, a <= b -> a / 1000 * rate <= b / 1000 * rate).
  { intros a b Hab. apply Qmult_le_compat_r; [| exact Hr].
    apply Qmult_le_compat_r; [exact Hab | discriminate]. }
  split; [reflexivity |].
  split; [apply Hm |].
  split; [unfold Qdiv; ring |].
  split; [apply round_eq; rewrite div_thousand; reflexivity |].
  split.
  - intros H. apply round_mono. rewrite !div_thousand. apply Hm, H.
  - split; [| reflexivity].
    assert (E : 0 / 1000.0 * rate == 0) by (unfold Qdiv; ring).
    rewrite (round_eq _ _ 2 E). reflexivity.
Qed.

Lemma required_credits_monotone_witness :
  0 <= required_credits_per_1k default /\
  required_credits default 0 == 0 /\
  AppNew.required_credits_eur 0 (required_credits_per_1k default) == 0.
Proof.
  assert (H : 0 <= required_credits_per_1k default) by discriminate.
  split; [exact H |].
  destruct (required_credits_monotone default 0 1000 H)
    as (_ & _ & H0 & _ & _ & H1 & _).
  split; [exact H0 | exact H1].
Defined.

(** C6, as stated, fails when nothing is verified either: with reported
    and verified credits both 0 the gap is 1.0. *)
Lemma gap_without_reports_not_zero :
  reported_credits blank == 0 /\
  exists s, greenwash_signals default blank = Ok s /\ gap s = 1.0 /\ ~ gap s == 0.
Proof.
  split; [reflexivity |].
  eexists. split; [apply greenwash_signals_ok |].
  split; [reflexivity | intros H; discriminate H].
Qed.

(** C6, amended.  With no credits reported the gap is 0 as soon as some
    credits are verified; with none verified it is 1.0. *)
Theorem gap_zero_without_reports (self : t) (app : BorrowerApplication) :
  reported_credits app == 0 ->
  exists s,
    greenwash_signals self app = Ok s /\
    (0 < verified_credits app -> gap s = 0.0) /\
    (verified_credits app == 0 -> gap s = 1.0).
Proof.
  intros Hr. eexists. split; [apply greenwash_signals_ok |].
  cbn [gap]. split; intros Hv.
  - assert (Hq : (reported_credits app - verified_credits app)
                 / verified_credits app == -1).
    { rewrite Hr. field. lra. }
    apply Qltb_lt in Hv. rewrite Hv.
    destruct (max_spec 0.0 ((reported_credits app - verified_credits app)
                            / verified_credits app)) as [[H _] | [_ E]].
    + rewrite Hq in H. lra.
    + exact E.
  - assert (E : Py.Qltb 0 (verified_credits app) = false).
    { apply Qltb_ge. rewrite Hv. apply Qle_refl. }
    rewrite E. reflexivity.
Qed.

Lemma gap_zero_without_reports_witness :
  reported_credits (with_verified blank 800.0) == 0 /\
  exists s,
    greenwash_signals default (with_verified blank 800.0) = Ok s /\ gap s = 0.0.
Proof.
  assert (H : reported_credits (with_verified blank 800.0) == 0) by reflexivity.
  split; [exact H |].
  destruct (gap_zero_without_reports default (with_verified blank 800.0) H)
    as (s & Hs & Hpos & _).
  exists s. split; [exact Hs |]. apply Hpos. reflexivity.
Defined.

(** ** Pricing *)

(** C7.  The priced rate is a step function of the score: the base rate
    below 25, one penalty step more from 25, two from 50, three from 75;
    the base is 6% and the step 3%. *)
Theorem price_step_function (base_rate score : Q) :
  (score < 25 -> price base_rate score = base_rate) /\
  (25 <= score -> score < 50 ->
   price base_rate score == base_rate + 1 * PENALTY_RATE_STEP) /\
  (50 <= score -> score < 75 ->
   price base_rate score == base_rate + 2 * PENALTY_RATE_STEP) /\
  (75 <= score ->
   price base_rate score == base_rate + 3 * PENALTY_RATE_STEP) /\
  BASE_RATE == 6 # 100 /\ PENALTY_RATE_STEP == 3 # 100.
Proof.
  unfold price.
  destruct (Py.Qltb score 25) eqn:E1; destruct (Py.Qltb score 50) eqn:E2;
    destruct (Py.Qltb score 75) eqn:E3; bool_facts.
  all: repeat split; intros; try reflexivity; lra.
Qed.

(** ** Table look-ups *)

(** C8.  [greenwash_signals] never fails.  A registry source that is not
    a key of the registry table gets the weight stored under "Other", and
    so does a project type that is not a key of the project table; a key
    that is present gets its own weight. *)
Theorem signals_fallback_other (self : t) (app : BorrowerApplication) :
  exists s other_reg other_proj,
    greenwash_signals self app = Ok s /\
    REGISTRY_QUALITY_WEIGHTS !! "Other" = Some other_reg /\
    PROJECT_RISK_WEIGHTS !! "Other" = Some other_proj /\
    (REGISTRY_QUALITY_WEIGHTS !! registry_source app = None ->
     registry_quality s = other_reg) /\
    (PROJECT_RISK_WEIGHTS !! project_type app = None ->
     project_quality s = other_proj) /\
    (forall w, REGISTRY_QUALITY_WEIGHTS !! registry_source app = Some w ->
               registry_quality s = w) /\
    (forall w, PROJECT_RISK_WEIGHTS !! project_type app = Some w ->
               project_quality s = w).
Proof.
  eexists. exists 0.80, 0.80.
  split; [apply greenwash_signals_ok |].
  split; [reflexivity |]. split; [reflexivity |].
  cbn [registry_quality project_quality]. unfold Py.get.
  repeat split; intros; match goal with H : _ !! _ = _ |- _ => rewrite H end;
    reflexivity.
Qed.

(** ** Division by the tolerance *)

(** C9.  [greenwashing_score] returns a value exactly when the engine's
    gap tolerance is not zero, which holds for the default 0.10; with a
    zero tolerance the division raises [ZeroDivisionError]. *)
Theorem greenwashing_score_total_iff (self : t) (s : Signals) :
  ((exists v, greenwashing_score self s = Ok v) <-> ~ gap_tolerance self == 0) /\
  (greenwashing_score self s = Raise ZeroDivisionError
   <-> gap_tolerance self == 0) /\
  ~ gap_tolerance default == 0.
Proof.
  destruct (Qeq_dec (gap_tolerance self) 0) as [Hz | Hnz].
  - pose proof (greenwashing_score_zero self s Hz) as E. rewrite E.
    repeat split; try tauto; try exact default_tolerance_nonzero.
    intros [v Hv]. discriminate Hv.
  - pose proof (greenwashing_score_ok self s Hnz) as E. rewrite E.
    repeat split; try tauto; try exact default_tolerance_nonzero.
    + eauto.
    + intros H. discriminate H.
Qed.

(** ** The audit log *)

(** C10.  A call of [evaluate] that returns has appended exactly one
    record to the audit log: the log is the old log followed by one entry
    (for the returned decision), so its length grew by one and every
    earlier record is where it was; the two configuration fields are
    unchanged. *)
Theorem evaluate_appends_one_record (h : Host) (self : t) (app : BorrowerApplication) :
  ~ gap_tolerance self == 0 ->
  exists d self' entry,
    evaluate h self app = Ok (d, self') /\
    audit_log self' = audit_log self ++ [entry] /\
    length (audit_log self') = S (length (audit_log self)) /\
    (forall i r, audit_log self !! i = Some r -> audit_log self' !! i = Some r) /\
    required_credits_per_1k self' = required_credits_per_1k self /\
    gap_tolerance self' = gap_tolerance self /\
    ref entry = audit_ref d /\
    decision entry = status d /\
    rec_company_id entry = company_id app.
Proof.
  intros Htol.
  pose proof (greenwash_signals_ok self app) as Hs.
  set (s := mkSignals _ _ _ _) in Hs.
  pose proof (greenwashing_score_ok self s Htol) as Hg.
  set (score := score_of _ _) in Hg.
  pose proof (evaluate_outcome h self app s score Hs Hg) as He.
  assert (Hlog : forall dec,
            exists entry,
              snd (_log h self app s dec) =
                mk (required_credits_per_1k self) (gap_tolerance self)
                   (audit_log self ++ [entry]) /\
              ref entry = fst (_log h self app s dec) /\
              decision entry = dec /\ rec_company_id entry = company_id app).
  { intros dec. eexists. split; [reflexivity |]. repeat split. }
  rewrite He. unfold outcome.
  repeat match goal with
         | |- context [if ?b then _ else _] => destruct b
         end.
  all: match goal with
       | |- context [_log _ _ _ _ ?dec] =>
           destruct (Hlog dec) as (entry & E & Href & Hdec & Hcid)
       end.
  all: eexists _, _, entry; split; [reflexivity |]; rewrite E; cbn.
  all: rewrite length_app, Nat.add_comm; cbn.
  all: repeat split; try assumption.
  all: intros i r Hi; apply lookup_app_l_Some; exact Hi.
Qed.

Lemma evaluate_appends_one_record_witness :
  ~ gap_tolerance default == 0 /\
  exists d self',
    evaluate host0 default demo_forest = Ok (d, self') /\
    length (audit_log self') = 1%nat.
Proof.
  split; [exact default_tolerance_nonzero |].
  destruct (evaluate_appends_one_record host0 default demo_forest
              default_tolerance_nonzero)
    as (d & self' & entry & He & _ & Hlen & _).
  exists d, self'. split; [exact He | exact Hlen].
Defined.

(** ** Monotonicity in the verified credits *)

Lemma gap_antitone (r v v' : Q) :
  0 < v -> v < v' ->
  Py.max 0.0 ((r - v') / v') <= Py.max 0.0 ((r - v) / v).
Proof.
  intros Hv Hlt.
  assert (Hv' : 0 < v') by lra.
  assert (Hq : 0 <= r -> (r - v') / v' <= (r - v) / v).
  { intros Hr. apply Qle_shift_div_l; [exact Hv |].
    unfold Qdiv. rewrite <- Qmult_assoc, (Qmult_comm (/ v')), Qmult_assoc.
    apply Qle_shift_div_r; [exact Hv' |]. nra. }
  assert (Hn : r < 0 -> (r - v') / v' <= 0).
  { intros Hr. apply Qle_shift_div_r; [exact Hv' | lra]. }
  assert (Hn' : r < 0 -> (r - v) / v <= 0).
  { intros Hr. apply Qle_shift_div_r; [exact Hv | lra]. }
  destruct (Qlt_le_dec r 0) as [Hr | Hr]; py_minmax; lra.
Qed.

Lemma favorability_outcome (h : Host) (self : t) (app : BorrowerApplication)
    (s : Signals) (score : Q) :
  favorability (status (fst (outcome h self app s score))) =
  if Qle_bool (required_credits self (loan_requested app)) (verified_credits app)
     && Qle_bool (gap s) (gap_tolerance self) && Py.Qltb score 50
  then 2%nat
  else if Qle_bool (required_credits self (loan_requested app)) (verified_credits app)
          && Py.Qltb score 75
  then 1%nat else 0%nat.
Proof.
  unfold outcome.
  repeat match goal with
         | |- context [if ?b then _ else _] => destruct b
         end; reflexivity.
Qed.

Section Tolerance.

Variable tol : Q.
Hypothesis tol_pos : 0 < tol.
Hypothesis tol_le_1 : tol <= 1.

Lemma gap_component_mono (g g' : Q) :
  g' <= g -> Py.min 1.0 (g' / tol) <= Py.min 1.0 (g / tol).
Proof.
  intros Hg.
  assert (H : g' / tol <= g / tol).
  { apply Qmult_le_compat_r; [exact Hg |]. apply Qinv_le_0_compat. lra. }
  py_minmax; lra.
Qed.

Lemma gap_component_saturated : Py.min 1.0 (1.0 / tol) == 1.
Proof.
  assert (H : 1 <= 1.0 / tol).
  { apply Qle_shift_div_l; [exact tol_pos | lra]. }
  py_minmax; lra.
Qed.

Lemma gap_component_le_1 (g : Q) : Py.min 1.0 (g / tol) <= 1.
Proof. py_minmax; lra. Qed.

Lemma score_of_mono (g g' rq pq bio : Q) :
  Py.min 1.0 (g' / tol) <= Py.min 1.0 (g / tol) ->
  score_of tol (mkSignals g' rq pq bio) <= score_of tol (mkSignals g rq pq bio).
Proof.
  intros H. unfold score_of.
  cbn [gap registry_quality project_quality biology_confidence].
  apply round_mono.
  apply Qmult_le_l; [reflexivity |].
  apply max_min_clamp_mono. lra.
Qed.

Lemma score_of_saturated (g rq pq bio : Q) :
  Py.min 1.0 (g / tol) == 1 -> rq + pq <= 2 -> bio <= 1 ->
  50 <= score_of tol (mkSignals g rq pq bio).
Proof.
  intros Hc Hq Hb. unfold score_of.
  cbn [gap registry_quality project_quality biology_confidence].
  apply (round_lb 50). unfold inject_Z.
  match goal with
  | |- context [Py.max 0.0 (Py.min 1.0 ?r)] =>
      assert (Hr : 1 # 2 <= r) by lra;
      generalize dependent r
  end.
  intros r Hr. py_minmax; lra.
Qed.

End Tolerance.

(** C5.  For an engine whose gap tolerance lies in (0, 1] (the default is
    0.10), raising the verified credits of an application and leaving
    everything else as it is never yields a less favourable status.  The
    two calls may see different clocks, and the second engine may carry a
    longer log, as long as it has the same configuration. *)
Theorem evaluate_monotone_in_verified (h1 h2 : Host) (self1 self2 : t)
    (app : BorrowerApplication) (v' : Q) :
  0 < gap_tolerance self1 -> gap_tolerance self1 <= 1 ->
  required_credits_per_1k self2 = required_credits_per_1k self1 ->
  gap_tolerance self2 = gap_tolerance self1 ->
  verified_credits app < v' ->
  exists d1 self1' d2 self2',
    evaluate h1 self1 app = Ok (d1, self1') /\
    evaluate h2 self2 (with_verified app v') = Ok (d2, self2') /\
    (favorability (status d1) <= favorability (status d2))%nat.
Proof.
  intros Hpos Hle Hrate Htol Hv.
  assert (Hnz1 : ~ gap_tolerance self1 == 0) by lra.
  assert (Hnz2 : ~ gap_tolerance self2 == 0) by (rewrite Htol; exact Hnz1).
  pose proof (greenwash_signals_ok self1 app) as Hs1.
  pose proof (greenwash_signals_ok self2 (with_verified app v')) as Hs2.
  cbn [with_verified reported_credits verified_credits registry_source
       project_type] in Hs2.
  change (BiologyValidator.score (with_verified app v'))
    with (BiologyValidator.score app) in Hs2.
  pose proof (registry_weight_range (registry_source app)) as Hrq.
  pose proof (project_weight_range (project_type app)) as Hpq.
  pose proof (bio_score_range app) as Hbio.
  set (g1 := if Py.Qltb 0 (verified_credits app) then _ else _) in Hs1.
  set (g2 := if Py.Qltb 0 v' then _ else _) in Hs2.
  set (rq := Py.get REGISTRY_QUALITY_WEIGHTS _ _) in *.
  set (pq := Py.get PROJECT_RISK_WEIGHTS _ _) in *.
  set (bio := BiologyValidator.score app) in *.
  pose proof (greenwashing_score_ok self1 (mkSignals g1 rq pq bio) Hnz1) as Hg1.
  pose proof (greenwashing_score_ok self2 (mkSignals g2 rq pq bio) Hnz2) as Hg2.
  rewrite Htol in Hg2.
  set (tol := gap_tolerance self1) in *.
  set (score1 := score_of tol (mkSignals g1 rq pq bio)) in *.
  set (score2 := score_of tol (mkSignals g2 rq pq bio)) in *.
  pose proof (evaluate_outcome h1 self1 app _ _ Hs1 Hg1) as He1.
  pose proof (evaluate_outcome h2 self2 (with_verified app v') _ _ Hs2 Hg2) as He2.
  eexists _, _, _, _.
  split; [rewrite He1; apply f_equal, surjective_pairing |].
  split; [rewrite He2; apply f_equal, surjective_pairing |].
  rewrite !favorability_outcome.
  cbn [with_verified loan_requested verified_credits gap].
  unfold required_credits. rewrite Hrate, Htol. fold tol.
  set (req := loan_requested app / 1000 * required_credits_per_1k self1).
  assert (Hscore : score2 <= score1 /\ (g1 <= tol -> score1 < 50 -> g2 <= tol)).
  { destruct (Qlt_le_dec 0 (verified_credits app)) as [Hvp | Hvn].
    - assert (Hgap : g2 <= g1).
      { subst g1 g2.
        assert (E1 : Py.Qltb 0 (verified_credits app) = true) by (apply Qltb_lt; exact Hvp).
        assert (E2 : Py.Qltb 0 v' = true) by (apply Qltb_lt; lra).
        rewrite E1, E2. apply gap_antitone; assumption. }
      split; [| lra].
      apply score_of_mono, gap_component_mono; assumption.
    - assert (E1 : g1 = 1.0).
      { subst g1.
        assert (E : Py.Qltb 0 (verified_credits app) = false) by (apply Qltb_ge; exact Hvn).
        rewrite E. reflexivity. }
      assert (Hsat : Py.min 1.0 (g1 / tol) == 1).
      { rewrite E1. exact (gap_component_saturated tol Hpos Hle). }
      split.
      + apply score_of_mono. pose proof (gap_component_le_1 tol g2). lra.
      + intros _ H50.
        pose proof (score_of_saturated tol g1 rq pq bio Hsat) as H.
        fold score1 in H. lra. }
  destruct Hscore as [Hsc Hok].
  destruct (Qle_bool req (verified_credits app)) eqn:S1;
    destruct (Qle_bool req v') eqn:S2;
    destruct (Qle_bool g1 tol) eqn:O1; destruct (Qle_bool g2 tol) eqn:O2;
    destruct (Py.Qltb score1 50) eqn:A1; destruct (Py.Qltb score2 50) eqn:A2;
    destruct (Py.Qltb score1 75) eqn:B1; destruct (Py.Qltb score2 75) eqn:B2;
    cbn; try lia; bool_facts; exfalso; lra.
Qed.

Lemma evaluate_monotone_in_verified_witness :
  0 < gap_tolerance default /\ gap_tolerance default <= 1 /\
  verified_credits unverified < 3500.0 /\
  exists d1 self1' d2 self2',
    evaluate host0 default unverified = Ok (d1, self1') /\
    evaluate host0 default (with_verified unverified 3500.0) = Ok (d2, self2') /\
    (favorability (status d1) <= favorability (status d2))%nat.
Proof.
  assert (H1 : 0 < gap_tolerance default) by reflexivity.
  assert (H2 : gap_tolerance default <= 1) by discriminate.
  assert (H3 : verified_credits unverified < 3500.0) by reflexivity.
  repeat (split; [assumption |]).
  exact (evaluate_monotone_in_verified host0 host0 default default
           unverified 3500.0 H1 H2 eq_refl eq_refl H3).
Defined.

(** The bound on the tolerance is needed: with a tolerance of 2 and a loan
    of 0, a first verified credit turns an approval into an approval with
    penalty. *)
Remark tolerance_above_one_not_monotone :
  let engine := init 10.0 2.0 in
  let app :=
    mkBorrowerApplication "DemCo" 0.0 100.0 0.0 "Other" "Other" (flags false true) in
  exists d1 d2 self1' self2',
    evaluate host0 engine app = Ok (d1, self1') /\
    evaluate host0 engine (with_verified app 1.0) = Ok (d2, self2') /\
    status d1 = "APPROVED" /\ status d2 = "APPROVED_WITH_PENALTY".
Proof.
  cbv zeta. eexists _, _, _, _.
  split; [vm_compute; reflexivity |].
  split; [vm_compute; reflexivity |].
  split; reflexivity.
Qed.

(** * Further properties of the two scripts *)

(** ** Evidence confidence *)

Lemma bio_score_product (app : BorrowerApplication) :
  BiologyValidator.score app ==
  (if String.eqb (Py.lower (project_type app)) "reforestation" then 0.95 else 1)
  * (if Py.truthy (Py.get (meta app) "has_recent_remote_sensing" (PyBool false))
     then 1 else 0.90)
  * (if Py.is_False (Py.get (meta app) "soil_tests_ok" (PyBool true))
     then 0.80 else 1).
Proof.
  unfold BiologyValidator.score.
  destruct (String.eqb _ _); destruct (Py.truthy _); destruct (Py.is_False _);
    vm_compute; reflexivity.
Qed.

Lemma bio_score_lower_bound (app : BorrowerApplication) :
  0.684 <= BiologyValidator.score app.
Proof.
  rewrite bio_score_product.
  destruct (String.eqb _ _); destruct (Py.truthy _); destruct (Py.is_False _);
    discriminate.
Qed.

Lemma is_False_get_iff (m : gmap string Py.object) (k : string) :
  Py.is_False (Py.get m k (PyBool true)) = true <-> m !! k = Some (PyBool false).
Proof.
  unfold Py.get. destruct (m !! k) as [o |]; cbn.
  - split.
    + destruct o as [| [] | | |]; cbn; intros H; try discriminate H. reflexivity.
    + intros [= ->]. reflexivity.
  - split; intros H; discriminate H.
Qed.

(** X1.  The evidence confidence is at most 0.8 exactly when the flag
    [soil_tests_ok] is present and is the value [False]; a missing flag,
    [None], [0] or an empty string leave it at 0.855 or more. *)
Theorem soil_penalty_iff_flag_is_False (app : BorrowerApplication) :
  (BiologyValidator.score app <= 0.80
   <-> meta app !! "soil_tests_ok" = Some (PyBool false)) /\
  (meta app !! "soil_tests_ok" <> Some (PyBool false)
   <-> 0.855 <= BiologyValidator.score app).
Proof.
  rewrite <- is_False_get_iff.
  pose proof (bio_score_product app) as E.
  destruct (Py.is_False _) eqn:F;
    destruct (String.eqb _ _); destruct (Py.truthy _);
    (split; split; intros H; try reflexivity; try discriminate;
     try (rewrite E; discriminate);
     try (exfalso; rewrite E in H; apply H; reflexivity);
     try (exfalso; apply H; reflexivity)).
Qed.

(** ** The signal set *)

Lemma project_lookup_cases (k : string) :
  PROJECT_RISK_WEIGHTS !! k = None \/
  k = "Reforestation" \/ k = "Renewable" \/ k = "Cookstove" \/ k = "Other".
Proof.
  unfold PROJECT_RISK_WEIGHTS.
  repeat (rewrite lookup_insert; case_decide; [auto |]).
  left. apply lookup_empty.
Qed.

(** X2.  The project table is matched with the exact spelling, the
    reforestation discount of the confidence without regard to case: a
    project type that reads "reforestation" in another capitalisation than
    "Reforestation" gets the weight of "Other" (0.80 instead of 0.90) and
    still the reduced confidence. *)
Theorem reforestation_spelling_mismatch (self : t) (app : BorrowerApplication) :
  Py.lower (project_type app) = "reforestation" ->
  project_type app <> "Reforestation" ->
  exists s,
    greenwash_signals self app = Ok s /\
    project_quality s = 0.80 /\
    biology_confidence s <= 0.95.
Proof.
  intros Hl Hne. eexists. split; [apply greenwash_signals_ok |].
  cbn [project_quality biology_confidence]. split.
  - unfold Py.get.
    destruct (project_lookup_cases (project_type app)) as [-> | [E | [E | [E | E]]]];
      [reflexivity | contradiction | | |];
      rewrite E in Hl; discriminate Hl.
  - rewrite bio_score_product, Hl. cbn.
    destruct (Py.truthy _); destruct (Py.is_False _); discriminate.
Qed.

Lemma reforestation_spelling_mismatch_witness :
  Py.lower "REFORESTATION" = "reforestation" /\
  exists s,
    greenwash_signals default
      (mkBorrowerApplication "DemCo" 1000.0 1000.0 800.0 "Verra" "REFORESTATION"
         (flags true true)) = Ok s /\
    project_quality s = 0.80 /\ biology_confidence s <= 0.95.
Proof.
  split; [reflexivity |].
  apply (reforestation_spelling_mismatch default); [reflexivity | discriminate].
Defined.

(** X3.  Every signal set that [greenwash_signals] returns has a gap of at
    least 0, both quality weights between 0.80 and 0.95 and a confidence
    between 0.684 and 1; with some credits verified the gap is 0 exactly
    when no more credits are reported than verified. *)
Theorem signals_ranges (self : t) (app : BorrowerApplication) :
  exists s,
    greenwash_signals self app = Ok s /\
    0 <= gap s /\
    0.80 <= registry_quality s <= 0.95 /\
    0.80 <= project_quality s <= 0.95 /\
    0.684 <= biology_confidence s <= 1 /\
    (0 < verified_credits app ->
     (gap s == 0 <-> reported_credits app <= verified_credits app)).
Proof.
  eexists. split; [apply greenwash_signals_ok |].
  cbn [gap registry_quality project_quality biology_confidence].
  split.
  { destruct (Py.Qltb 0 (verified_credits app)); [| discriminate].
    py_minmax; lra. }
  split; [apply registry_weight_range |].
  split; [apply project_weight_range |].
  split; [split; [apply bio_score_lower_bound | apply bio_score_range] |].
  intros Hv. pose proof Hv as Hb. apply Qltb_lt in Hb. rewrite Hb.
  set (r := reported_credits app). set (v := verified_credits app) in *.
  assert (Hq : (r - v) / v <= 0 <-> r <= v).
  { split; intros H.
    - destruct (Qlt_le_dec v r) as [Hlt | Hle]; [| exact Hle].
      exfalso. assert (0 < (r - v) / v).
      { apply Qlt_shift_div_l; [exact Hv | lra]. }
      lra.
    - apply Qle_shift_div_r; [exact Hv | lra]. }
  py_minmax; split; intros H; try lra; tauto.
Qed.

(** ** What the engine can and cannot decide *)

Lemma score_of_upper (tol g rq pq bio : Q) :
  0.80 <= rq -> 0.80 <= pq -> 0.684 <= bio ->
  score_of tol (mkSignals g rq pq bio) <= 62.32.
Proof.
  intros Hr Hp Hb. unfold score_of.
  cbn [gap registry_quality project_quality biology_confidence].
  apply Qle_trans with (Py.round 62.32 2); [apply round_mono | discriminate].
  pose proof (gap_component_le_1 tol g) as Hc.
  py_minmax; lra.
Qed.

Lemma score_of_lower (tol g rq pq bio : Q) :
  0 < tol -> 0 <= g -> rq <= 0.95 -> pq <= 0.95 -> bio <= 1 ->
  1.5 <= score_of tol (mkSignals g rq pq bio).
Proof.
  intros Ht Hg Hr Hp Hb. unfold score_of.
  cbn [gap registry_quality project_quality biology_confidence].
  apply Qle_trans with (Py.round 1.5 2); [discriminate | apply round_mono].
  assert (Hc : 0 <= g / tol).
  { apply Qle_shift_div_l; [exact Ht | lra]. }
  py_minmax; lra.
Qed.

(** X4.  On the signals of any application the score is at most 62.32
    (and at least 1.5 when the tolerance is positive): the weights of the
    two tables and the confidence floor leave no room for more. *)
Theorem application_score_bounds (self : t) (app : BorrowerApplication) :
  ~ gap_tolerance self == 0 ->
  exists s v,
    greenwash_signals self app = Ok s /\
    greenwashing_score self s = Ok v /\
    v <= 62.32 /\
    (0 < gap_tolerance self -> 1.5 <= v).
Proof.
  intros Htol. eexists _, _.
  split; [apply greenwash_signals_ok |].
  split; [apply greenwashing_score_ok; exact Htol |].
  pose proof (registry_weight_range (registry_source app)) as Hr.
  pose proof (project_weight_range (project_type app)) as Hp.
  pose proof (bio_score_range app) as Hb.
  pose proof (bio_score_lower_bound app) as Hb'.
  split.
  - apply score_of_upper; tauto.
  - intros Hpos. apply score_of_lower; try tauto.
    destruct (Py.Qltb 0 (verified_credits app)); [| discriminate].
    py_minmax; lra.
Qed.

Lemma application_score_bounds_witness :
  ~ gap_tolerance default == 0 /\
  exists s v,
    greenwash_signals default demo_forest = Ok s /\
    greenwashing_score default s = Ok v /\ v <= 62.32.
Proof.
  split; [exact default_tolerance_nonzero |].
  destruct (application_score_bounds default demo_forest default_tolerance_nonzero)
    as (s & v & Hs & Hg & Hub & _).
  exists s, v. auto.
Defined.

Lemma evaluate_run (h : Host) (self : t) (app : BorrowerApplication) :
  ~ gap_tolerance self == 0 ->
  exists s score,
    greenwash_signals self app = Ok s /\
    score = score_of (gap_tolerance self) s /\
    score <= 62.32 /\
    evaluate h self app = Ok (outcome h self app s score).
Proof.
  intros Htol.
  pose proof (greenwash_signals_ok self app) as Hs.
  set (s := mkSignals _ _ _ _) in Hs.
  pose proof (greenwashing_score_ok self s Htol) as Hg.
  exists s, (score_of (gap_tolerance self) s).
  split; [exact Hs |]. split; [reflexivity |]. split.
  - pose proof (registry_weight_range (registry_source app)).
    pose proof (project_weight_range (project_type app)).
    pose proof (bio_score_lower_bound app).
    apply score_of_upper; tauto.
  - apply evaluate_outcome; assumption.
Qed.

(** X5.  Whenever the score exists, an application is REJECTED exactly
    when its verified credits are below the requirement: since no score
    reaches 75, sufficient credits always earn an approval, with or
    without penalty. *)
Theorem rejected_iff_insufficient (h : Host) (self : t) (app : BorrowerApplication) :
  ~ gap_tolerance self == 0 ->
  exists d self',
    evaluate h self app = Ok (d, self') /\
    (status d = "REJECTED"
     <-> verified_credits app < required_credits self (loan_requested app)).
Proof.
  intros Htol.
  destruct (evaluate_run h self app Htol) as (s & score & _ & _ & Hub & He).
  eexists _, _. split; [rewrite He; apply f_equal, surjective_pairing |].
  unfold outcome.
  destruct (Qle_bool (required_credits self (loan_requested app))
                     (verified_credits app)) eqn:E1;
    destruct (Qle_bool (gap s) (gap_tolerance self)) eqn:E2;
    destruct (Py.Qltb score 50) eqn:E3;
    destruct (Py.Qltb score 75) eqn:E4; cbn; bool_facts.
  all: split; intros H; try discriminate H; try reflexivity; try lra.
  all: exfalso; lra.
Qed.

Lemma rejected_iff_insufficient_witness :
  ~ gap_tolerance default == 0 /\
  exists d self',
    evaluate host0 default demo_forest = Ok (d, self') /\ status d = "REJECTED".
Proof.
  split; [exact default_tolerance_nonzero |].
  destruct (rejected_iff_insufficient host0 default demo_forest
              default_tolerance_nonzero) as (d & self' & He & Hiff).
  exists d, self'. split; [exact He |]. apply Hiff. reflexivity.
Defined.

(** X6.  The rate of a decision is 0, 6%, 9% or 12%: the fourth tier of
    [price] (15%, from a score of 75) is never charged, a REJECTED
    decision has rate 0, an APPROVED one 6% or 9%, and an
    APPROVED_WITH_PENALTY one 6%, 9% or 12%. *)
Theorem decision_rate_tiers (h : Host) (self : t) (app : BorrowerApplication) :
  ~ gap_tolerance self == 0 ->
  exists d self',
    evaluate h self app = Ok (d, self') /\
    (interest_rate_apr d == 0 \/ interest_rate_apr d == 0.06
     \/ interest_rate_apr d == 0.09 \/ interest_rate_apr d == 0.12) /\
    (status d = "APPROVED" ->
     interest_rate_apr d == 0.06 \/ interest_rate_apr d == 0.09) /\
    (interest_rate_apr d == 0 <-> status d = "REJECTED").
Proof.
  intros Htol.
  destruct (evaluate_run h self app Htol) as (s & score & _ & _ & Hub & He).
  eexists _, _. split; [rewrite He; apply f_equal, surjective_pairing |].
  unfold outcome, price.
  destruct (Qle_bool (required_credits self (loan_requested app))
                     (verified_credits app)) eqn:E1;
    destruct (Qle_bool (gap s) (gap_tolerance self)) eqn:E2;
    destruct (Py.Qltb score 25) eqn:E0;
    destruct (Py.Qltb score 50) eqn:E3;
    destruct (Py.Qltb score 75) eqn:E4; cbn; bool_facts.
  all: try (exfalso; lra).
  all: split; [| split; [| split]]; intros; try discriminate; try reflexivity.
  all: try match goal with H : _ == _ |- _ => vm_compute in H; discriminate H end.
  all: first [ left; vm_compute; reflexivity
             | right; vm_compute; reflexivity
             | right; left; vm_compute; reflexivity
             | right; right; left; vm_compute; reflexivity
             | right; right; right; vm_compute; reflexivity ].
Qed.

Lemma decision_rate_tiers_witness :
  ~ gap_tolerance default == 0 /\
  exists d self',
    evaluate host0 default maersk = Ok (d, self') /\
    (interest_rate_apr d == 0 <-> status d = "REJECTED").
Proof.
  split; [exact default_tolerance_nonzero |].
  destruct (decision_rate_tiers host0 default maersk default_tolerance_nonzero)
    as (d & self' & He & _ & _ & Hiff).
  exists d, self'. auto.
Defined.

(** ** Pricing and the audit trail *)

(** X7.  [price] never lowers the rate when the score rises, and stays
    between the base rate and the base rate plus three steps (9 points). *)
Theorem price_monotone (base_rate score score' : Q) :
  (score <= score' -> price base_rate score <= price base_rate score') /\
  base_rate <= price base_rate score <= base_rate + 0.09.
Proof.
  unfold price, PENALTY_RATE_STEP.
  destruct (Py.Qltb score 25) eqn:A1; destruct (Py.Qltb score 50) eqn:A2;
    destruct (Py.Qltb score 75) eqn:A3;
    destruct (Py.Qltb score' 25) eqn:B1; destruct (Py.Qltb score' 50) eqn:B2;
    destruct (Py.Qltb score' 75) eqn:B3; bool_facts.
  all: split; [intros H | split]; lra.
Qed.

(** X8.  The decision does not depend on the audit log nor, apart from
    the audit reference, on the clock and the hash: two engines with the
    same configuration agree on status, reason, rate, requirement and
    score, or fail with the same error. *)
Theorem decision_independent_of_log (h1 h2 : Host) (self1 self2 : t)
    (app : BorrowerApplication) :
  required_credits_per_1k self1 = required_credits_per_1k self2 ->
  gap_tolerance self1 = gap_tolerance self2 ->
  match evaluate h1 self1 app, evaluate h2 self2 app with
  | Ok (d1, _), Ok (d2, _) =>
      status d1 = status d2 /\ reason d1 = reason d2 /\
      interest_rate_apr d1 = interest_rate_apr d2 /\
      App.required_credits d1 = App.required_credits d2 /\
      App.greenwashing_score d1 = App.greenwashing_score d2
  | Raise e1, Raise e2 => e1 = e2
  | _, _ => False
  end.
Proof.
  intros Hr Ht.
  pose proof (greenwash_signals_ok self1 app) as Hs1.
  pose proof (greenwash_signals_ok self2 app) as Hs2.
  set (s := mkSignals _ _ _ _) in *.
  destruct (Qeq_dec (gap_tolerance self1) 0) as [Hz | Hnz].
  - unfold evaluate. rewrite Hs1, Hs2. cbn [mbind result_bind].
    rewrite (greenwashing_score_zero self1 s Hz).
    rewrite (greenwashing_score_zero self2 s) by (rewrite <- Ht; exact Hz).
    reflexivity.
  - rewrite (evaluate_outcome h1 self1 app s _ Hs1 (greenwashing_score_ok self1 s Hnz)).
    assert (Hnz2 : ~ gap_tolerance self2 == 0) by (rewrite <- Ht; exact Hnz).
    rewrite (evaluate_outcome h2 self2 app s _ Hs2 (greenwashing_score_ok self2 s Hnz2)).
    unfold outcome, required_credits. rewrite <- Hr, <- Ht.
    repeat match goal with
           | |- context [if ?b then _ else _] => destruct b
           end; cbn; repeat split.
Qed.

Lemma decision_independent_of_log_witness :
  required_credits_per_1k default = required_credits_per_1k default /\
  gap_tolerance default = gap_tolerance default /\
  match evaluate host0 default maersk,
        evaluate (mkHost 1700000600.0 1700000600.25 (fun _ _ => 77%Z))
                 default maersk with
  | Ok (d1, _), Ok (d2, _) =>
      status d1 = status d2 /\ reason d1 = reason d2 /\
      interest_rate_apr d1 = interest_rate_apr d2 /\
      App.required_credits d1 = App.required_credits d2 /\
      App.greenwashing_score d1 = App.greenwashing_score d2
  | Raise e1, Raise e2 => e1 = e2
  | _, _ => False
  end.
Proof.
  split; [reflexivity |]. split; [reflexivity |].
  exact (decision_independent_of_log host0
           (mkHost 1700000600.0 1700000600.25 (fun _ _ => 77%Z))
           default default maersk eq_refl eq_refl).
Defined.

(** ** Audit references *)

Lemma str_inj (n m : Z) : Py.str n = Py.str m -> n = m.
Proof.
  unfold Py.str. intros H. apply DecimalZ.to_int_inj.
  assert (Hnn : forall z, Z.to_int z <> Decimal.Pos Decimal.Nil
                          /\ Z.to_int z <> Decimal.Neg Decimal.Nil).
  { intros [| p | p]; cbn; split; try discriminate;
      intros [= E]; exact (DecimalPos.Unsigned.to_uint_nonnil p E). }
  apply (f_equal NilZero.int_of_string) in H.
  rewrite !NilZero.isi in H by apply Hnn.
  congruence.
Qed.

Lemma uint_digits_no_underscore (d : Decimal.uint) (a : ascii) :
  In a (list_ascii_of_string (NilEmpty.string_of_uint d)) -> a <> "_"%char.
Proof.
  induction d; cbn; intros H; try contradiction;
    destruct H as [<- | H]; try discriminate; auto.
Qed.

Lemma str_no_underscore (n : Z) (a : ascii) :
  In a (list_ascii_of_string (Py.str n)) -> a <> "_"%char.
Proof.
  unfold Py.str, NilZero.string_of_int, NilZero.string_of_uint.
  destruct (Z.to_int n) as [d | d]; cbn.
  - destruct d; try apply uint_digits_no_underscore.
    cbn. intros [<- | []]. discriminate.
  - intros [<- | H]; [discriminate |]. revert H.
    destruct d; try apply uint_digits_no_underscore.
    cbn. intros [<- | []]. discriminate.
Qed.

Lemma split_at_underscore (d1 d2 c1 c2 : string) :
  (forall a, In a (list_ascii_of_string d1) -> a <> "_"%char) ->
  (forall a, In a (list_ascii_of_string d2) -> a <> "_"%char) ->
  d1 +:+ "_" +:+ c1 = d2 +:+ "_" +:+ c2 -> d1 = d2 /\ c1 = c2.
Proof.
  revert d2. induction d1 as [| a d1 IH]; intros [| b d2] H1 H2 H;
    simpl in H; injection H as H.
  - split; [reflexivity | exact H].
  - exfalso. apply (H2 b); [left; reflexivity | congruence].
  - exfalso. apply (H1 a); [left; reflexivity | congruence].
  - subst b. destruct (IH d2) as [-> ->]; auto.
    + intros x Hx. apply H1. right. exact Hx.
    + intros x Hx. apply H2. right. exact Hx.
Qed.

(** X9.  Two calls of [_log] return the same reference exactly when they
    read the same millisecond and log the same company id: the reference
    identifies the pair, and a repeated evaluation of one applicant within
    one millisecond reuses it. *)
Theorem audit_ref_identifies_tick_and_company (h1 h2 : Host) (self1 self2 : t)
    (app1 app2 : BorrowerApplication) (s1 s2 : Signals) (dec1 dec2 : string) :
  fst (_log h1 self1 app1 s1 dec1) = fst (_log h2 self2 app2 s2 dec2)
  <-> Py.int (time_ref h1 * 1000) = Py.int (time_ref h2 * 1000)
      /\ company_id app1 = company_id app2.
Proof.
  unfold _log. cbn [fst]. split.
  - intros H. cbn in H. injection H as H.
    apply split_at_underscore in H; try apply str_no_underscore.
    destruct H as [H ->]. split; [apply str_inj, H | reflexivity].
  - intros [-> ->]. reflexivity.
Qed.

(** ** The session of the page *)

Lemma evaluate_log_step (h : Host) (self : t) (app : BorrowerApplication) :
  ~ gap_tolerance self == 0 ->
  exists d entry,
    evaluate h self app =
      Ok (d, mk (required_credits_per_1k self) (gap_tolerance self)
                (audit_log self ++ [entry])) /\
    ref entry = audit_ref d /\ decision entry = status d.
Proof.
  intros Htol.
  destruct (evaluate_run h self app Htol) as (s & score & _ & _ & _ & He).
  rewrite He. unfold outcome.
  repeat match goal with
         | |- context [if ?b then _ else _] => destruct b
         end.
  all: eexists _, _; split; [reflexivity | split; reflexivity].
Qed.

(** X10.  In every session the page can reach, the engine still has the
    default configuration, the rows of [runs] are the most recent entries
    of the engine's audit log, in order and with the same reference and
    decision (clearing the history empties [runs] but not the log), and a
    further submission never raises. *)
Theorem session_runs_are_log_tail (st : AppPage.Session) :
  AppPage.reachable st ->
  required_credits_per_1k (AppPage.contract st) = DEFAULT_REQUIRED_CREDITS_PER_1K /\
  gap_tolerance (AppPage.contract st) = GREENWASH_GAP_TOLERANCE /\
  (exists older,
     map (fun e => (ref e, decision e)) (audit_log (AppPage.contract st)) =
     older ++ map (fun r => (AppPage.run_audit_ref r, AppPage.run_decision r))
                  (AppPage.runs st)) /\
  (forall h f, exists st', AppPage.submit h st f = Ok st').
Proof.
  intros Hreach.
  assert (Hinv :
    required_credits_per_1k (AppPage.contract st) = DEFAULT_REQUIRED_CREDITS_PER_1K /\
    gap_tolerance (AppPage.contract st) = GREENWASH_GAP_TOLERANCE /\
    exists older,
      map (fun e => (ref e, decision e)) (audit_log (AppPage.contract st)) =
      older ++ map (fun r => (AppPage.run_audit_ref r, AppPage.run_decision r))
                   (AppPage.runs st)).
  { induction Hreach as [| h st st' f _ IH Hsub | st _ IH _].
    - split; [reflexivity |]. split; [reflexivity |]. exists []. reflexivity.
    - destruct IH as (Hr & Ht & older & Hlog).
      assert (Hnz : ~ gap_tolerance (AppPage.contract st) == 0).
      { rewrite Ht. discriminate. }
      destruct (evaluate_log_step h (AppPage.contract st) (AppPage.app_obj f) Hnz)
        as (d & entry & He & Href & Hdec).
      unfold AppPage.submit in Hsub. rewrite He in Hsub.
      cbn in Hsub. injection Hsub as <-. cbn.
      split; [exact Hr |]. split; [exact Ht |].
      exists older. rewrite !map_app, Hlog, <- app_assoc. cbn.
      rewrite Href, Hdec. reflexivity.
    - destruct IH as (Hr & Ht & older & Hlog). cbn.
      split; [exact Hr |]. split; [exact Ht |].
      eexists. rewrite app_nil_r. reflexivity. }
  destruct Hinv as (Hr & Ht & Htail).
  split; [exact Hr |]. split; [exact Ht |]. split; [exact Htail |].
  intros h f.
  assert (Hnz : ~ gap_tolerance (AppPage.contract st) == 0).
  { rewrite Ht. discriminate. }
  destruct (evaluate_log_step h (AppPage.contract st) (AppPage.app_obj f) Hnz)
    as (d & entry & He & _).
  unfold AppPage.submit. rewrite He. eexists. reflexivity.
Qed.

Lemma session_runs_are_log_tail_witness :
  AppPage.reachable AppPage.new_session /\
  forall h f, exists st', AppPage.submit h AppPage.new_session f = Ok st'.
Proof.
  split; [exact AppPage.reach_new |].
  exact (proj2 (proj2 (proj2
           (session_runs_are_log_tail AppPage.new_session AppPage.reach_new)))).
Defined.

(** ** app_new.py: the score out of ten *)

Ltac py_cases :=
  repeat match goal with
         | |- context [Py.min ?a ?b] =>
             let H := fresh "Hmin" in let E := fresh "E" in
             destruct (min_spec a b) as [[H E] | [H E]];
             rewrite E in *; clear E
         | |- context [Py.max ?a ?b] =>
             let H := fresh "Hmax" in let E := fresh "E" in
             destruct (max_spec a b) as [[H E] | [H E]];
             rewrite E in *; clear E
         | H0 : context [Py.min ?a ?b] |- _ =>
             let H := fresh "Hmin" in let E := fresh "E" in
             destruct (min_spec a b) as [[H E] | [H E]];
             rewrite E in *; clear E
         | H0 : context [Py.max ?a ?b] |- _ =>
             let H := fresh "Hmax" in let E := fresh "E" in
             destruct (max_spec a b) as [[H E] | [H E]];
             rewrite E in *; clear E
         end.

Lemma new_registry_weight_range (k : string) :
  0.60 <= Py.get AppNew.REGISTRY_WEIGHTS k 0.8 <= 1.00.
Proof.
  unfold Py.get, AppNew.REGISTRY_WEIGHTS.
  repeat (rewrite lookup_insert; case_decide; [cbn; lra |]).
  rewrite lookup_empty. cbn. lra.
Qed.

Lemma new_project_weight_range (k : string) :
  0.70 <= Py.get AppNew.PROJECT_WEIGHTS k 0.8 <= 1.00.
Proof.
  unfold Py.get, AppNew.PROJECT_WEIGHTS.
  repeat (rewrite lookup_insert; case_decide; [cbn; lra |]).
  rewrite lookup_empty. cbn. lra.
Qed.

Lemma gap_ratio_antitone (v v' r : Q) :
  v <= v' ->
  exists g g',
    AppNew.gap_ratio v r = Ok g /\ AppNew.gap_ratio v' r = Ok g' /\
    0 <= g' /\ g' <= g /\ g <= 1.
Proof.
  intros Hv. unfold AppNew.gap_ratio.
  destruct (Py.Qltb 0 r) eqn:Hr; bool_facts.
  - assert (Hm : 0 < Py.max r 1e-6 /\ r <= Py.max r 1e-6) by (py_minmax; lra).
    destruct Hm as [Hm Hrm]. set (m := Py.max r 1e-6) in *.
    rewrite !div_ok by lra.
    eexists _, _. split; [reflexivity |]. split; [reflexivity |].
    set (c := if Py.Qltb v 0 then 0 else v).
    set (c' := if Py.Qltb v' 0 then 0 else v').
    assert (Hc : 0 <= c /\ c <= c').
    { subst c c'. destruct (Py.Qltb v 0) eqn:A; destruct (Py.Qltb v' 0) eqn:B;
        bool_facts; lra. }
    assert (Hg : 0 <= Py.max (r - c') 0 /\ Py.max (r - c') 0 <= Py.max (r - c) 0
                 /\ Py.max (r - c) 0 <= m) by (py_minmax; lra).
    destruct Hg as (G0 & G1 & G2).
    split; [apply Qle_shift_div_l; [exact Hm | lra] |].
    split; [apply Qmult_le_compat_r; [exact G1 | apply Qinv_le_0_compat; lra] |].
    apply Qle_shift_div_r; [exact Hm | lra].
  - cbn. eexists _, _. split; [reflexivity |]. split; [reflexivity |].
    repeat split; discriminate.
Qed.

Lemma new_score_value (verified reported : Q) (registry project : string)
    (remote soil : bool) :
  exists v,
    AppNew.greenwashing_score verified reported registry project remote soil
      = Ok v /\
    3.9 <= v <= 7.5.
Proof.
  unfold AppNew.greenwashing_score.
  destruct (gap_ratio_antitone verified verified reported (Qle_refl _))
    as (g0 & g1 & Hg0 & Hg1 & H0 & H01 & H1).
  rewrite Hg0 in Hg1. injection Hg1 as <-.
  rewrite Hg0. cbn [mbind result_bind mret result_ret].
  eexists. split; [reflexivity |].
  pose proof (new_registry_weight_range registry) as Hr.
  pose proof (new_project_weight_range project) as Hp.
  set (rw := Py.get AppNew.REGISTRY_WEIGHTS registry 0.8) in *.
  set (pw := Py.get AppNew.PROJECT_WEIGHTS project 0.8) in *.
  split.
  - apply Qle_trans with (Py.round 3.92 1); [discriminate |].
    apply round_mono. destruct remote; destruct soil; py_cases; lra.
  - apply Qle_trans with (Py.round 7.5 1); [| discriminate].
    apply round_mono. destruct remote; destruct soil; py_cases; lra.
Qed.

(** X11.  The score of the second script never fails and always lies
    between 3.9 and 7.5, so its clamp to [0, 10] never acts. *)
Theorem new_score_range (verified reported : Q) (registry project : string)
    (remote soil : bool) :
  exists v,
    AppNew.greenwashing_score verified reported registry project remote soil
      = Ok v /\
    3.9 <= v <= 7.5.
Proof. apply new_score_value. Qed.

(** X12.  With everything else fixed, more verified credits never lower
    the score of the second script. *)
Theorem new_score_monotone_in_verified (verified verified' reported : Q)
    (registry project : string) (remote soil : bool) :
  verified <= verified' ->
  exists v v',
    AppNew.greenwashing_score verified reported registry project remote soil
      = Ok v /\
    AppNew.greenwashing_score verified' reported registry project remote soil
      = Ok v' /\
    v <= v'.
Proof.
  intros Hv. unfold AppNew.greenwashing_score.
  destruct (gap_ratio_antitone verified verified' reported Hv)
    as (g & g' & Hg & Hg' & H0 & Hle & H1).
  rewrite Hg, Hg'. cbn [mbind result_bind mret result_ret].
  eexists _, _. split; [reflexivity |]. split; [reflexivity |].
  apply round_mono.
  set (rw := Py.get AppNew.REGISTRY_WEIGHTS registry 0.8).
  set (pw := Py.get AppNew.PROJECT_WEIGHTS project 0.8).
  destruct remote; destruct soil; py_cases; lra.
Qed.

Lemma new_score_monotone_in_verified_witness :
  200 <= 3500 /\
  exists v v',
    AppNew.greenwashing_score 200 500 "Other" "Reforestation" false false = Ok v /\
    AppNew.greenwashing_score 3500 500 "Other" "Reforestation" false false = Ok v' /\
    v <= v'.
Proof.
  assert (H : 200 <= 3500) by discriminate.
  split; [exact H |].
  exact (new_score_monotone_in_verified 200 3500 500 "Other" "Reforestation"
           false false H).
Defined.

(** ** app_new.py: rate, decision text and reference *)

Lemma round_half_even_error (y : Q) :
  y - (1 # 2) <= inject_Z (Py.round_half_even y) <= y + (1 # 2).
Proof.
  unfold Py.round_half_even.
  pose proof (Qfloor_le y) as Hlo. pose proof (Qlt_floor y) as Hhi.
  rewrite inject_Z_plus in Hhi. change (inject_Z 1) with 1 in Hhi.
  destruct (Qcompare (y - inject_Z (Qfloor y)) (1 # 2)) eqn:C;
    [destruct (Z.even (Qfloor y)) | |];
    rewrite ?inject_Z_plus; change (inject_Z 1) with 1;
    compare_facts; lra.
Qed.

Lemma round_error_2 (x : Q) :
  x - 0.005 <= Py.round x 2 <= x + 0.005.
Proof.
  pose proof (round_half_even_error (x * inject_Z 100)) as H.
  assert (E : Py.round x 2 == inject_Z (Py.round_half_even (x * inject_Z 100)) / 100).
  { unfold Py.round. cbn [Z.of_nat Z.pow Z.to_pos].
    rewrite (Qmake_Qdiv _ 100). reflexivity. }
  rewrite E. set (k := inject_Z (Py.round_half_even (x * inject_Z 100))) in *.
  change (inject_Z 100) with 100 in H.
  split.
  - apply Qle_shift_div_l; [reflexivity | lra].
  - apply Qle_shift_div_r; [reflexivity | lra].
Qed.

(** X13.  [apr_from_score] never returns a negative rate, never raises the
    rate when the score rises, and for the page's base of 6.0 stays
    between 5.30 and 6.50. *)
Theorem apr_from_score_bounds (base_apr score score' : Q) (registry : string)
    (remote soil : bool) :
  0 <= AppNew.apr_from_score base_apr score registry remote soil /\
  (score <= score' ->
   AppNew.apr_from_score base_apr score' registry remote soil
   <= AppNew.apr_from_score base_apr score registry remote soil) /\
  5.30 <= AppNew.apr_from_score 6.0 score registry remote soil <= 6.50.
Proof.
  unfold AppNew.apr_from_score.
  split; [| split; [intros Hs | split]].
  - apply (round_lb 0). unfold inject_Z. py_cases; lra.
  - apply round_mono.
    destruct (Py.str_in registry _); destruct remote; destruct soil;
      destruct (Qle_bool 8.5 score) eqn:A; destruct (Py.Qltb score 5.0) eqn:B;
      destruct (Qle_bool 8.5 score') eqn:A'; destruct (Py.Qltb score' 5.0) eqn:B';
      bool_facts; py_cases; lra.
  - apply Qle_trans with (Py.round 5.30 2); [discriminate |].
    apply round_mono.
    destruct (Py.str_in registry _); destruct remote; destruct soil;
      destruct (Qle_bool 8.5 score) eqn:A; destruct (Py.Qltb score 5.0) eqn:B;
      bool_facts; py_cases; lra.
  - apply Qle_trans with (Py.round 6.50 2); [| discriminate].
    apply round_mono.
    destruct (Py.str_in registry _); destruct remote; destruct soil;
      destruct (Qle_bool 8.5 score) eqn:A; destruct (Py.Qltb score 5.0) eqn:B;
      bool_facts; py_cases; lra.
Qed.

(** X14.  [decision_text] answers APPROVED exactly when the verified
    credits reach the needed ones and REJECTED otherwise; the shortfall it
    prints is never negative, is within 0.005 of the true shortfall, and
    is 0.0 when less than 0.005 is missing. *)
Theorem decision_text_shortfall (fmt : Q -> string) (verified needed : Q) :
  (needed <= verified ->
   AppNew.decision_text fmt verified needed
   = ("APPROVED", "Credits sufficient and clean signals")) /\
  (verified < needed ->
   exists short,
     AppNew.decision_text fmt verified needed
     = ("REJECTED", "Insufficient verified credits. Shortfall " +:+ fmt short) /\
     0 <= short /\
     needed - verified - 0.005 <= short <= needed - verified + 0.005 /\
     (needed - verified < 0.005 -> short == 0)).
Proof.
  unfold AppNew.decision_text. split; intros H.
  - apply Qle_bool_iff in H. rewrite H. reflexivity.
  - assert (E : Qle_bool needed verified = false).
    { apply not_true_iff_false. rewrite Qle_bool_iff. lra. }
    rewrite E. eexists. split; [reflexivity |].
    split; [apply (round_lb 0); unfold inject_Z; lra |].
    split; [apply round_error_2 |].
    intros Hsmall.
    pose proof (round_error_2 (needed - verified)) as [_ Hub].
    assert (Hlb : 0 <= Py.round (needed - verified) 2).
    { apply (round_lb 0). unfold inject_Z. lra. }
    unfold Py.round in *.
    change (Z.to_pos (10 ^ Z.of_nat 2)) with 100%positive in *.
    set (k := Py.round_half_even _) in *.
    assert (Hlt : k # 100 < 1 # 100) by lra.
    assert (Hk : k = 0%Z).
    { unfold Qlt, Qle in Hlt, Hlb. cbn in Hlt, Hlb. lia. }
    rewrite Hk. reflexivity.
Qed.

Lemma chars_app (a b : string) :
  list_ascii_of_string (a +:+ b)
  = (list_ascii_of_string a ++ list_ascii_of_string b)%list.
Proof. induction a as [| c a IH]; simpl; [reflexivity | f_equal; exact IH]. Qed.

Lemma uint_digits_no_space (d : Decimal.uint) (a : ascii) :
  In a (list_ascii_of_string (NilEmpty.string_of_uint d)) -> a <> " "%char.
Proof.
  induction d; cbn; intros H; try contradiction;
    destruct H as [<- | H]; try discriminate; auto.
Qed.

Lemma str_no_space (n : Z) (a : ascii) :
  In a (list_ascii_of_string (Py.str n)) -> a <> " "%char.
Proof.
  unfold Py.str, NilZero.string_of_int, NilZero.string_of_uint.
  destruct (Z.to_int n) as [d | d]; cbn.
  - destruct d; try apply uint_digits_no_space.
    cbn. intros [<- | []]. discriminate.
  - intros [<- | H]; [discriminate |]. revert H.
    destruct d; try apply uint_digits_no_space.
    cbn. intros [<- | []]. discriminate.
Qed.

Lemma remove_char_absent (c : ascii) (s : string) :
  ~ In c (list_ascii_of_string (Py.remove_char c s)).
Proof.
  induction s as [| a s IH]; cbn; [tauto |].
  destruct (Ascii.eqb_spec a c) as [-> | Hne]; [exact IH |].
  cbn. intros [E | H]; [congruence | exact (IH H)].
Qed.

Lemma remove_char_kept (c a : ascii) (s : string) :
  a <> c ->
  (In a (list_ascii_of_string (Py.remove_char c s))
   <-> In a (list_ascii_of_string s)).
Proof.
  intros Hne. induction s as [| b s IH]; cbn; [tauto |].
  destruct (Ascii.eqb_spec b c) as [-> | Hb]; cbn; rewrite IH; [| tauto].
  split; [tauto | intros [E | H]; [congruence | exact H]].
Qed.

(** X15.  The reference built by [new_audit_ref] contains no space,
    whatever the company name, and keeps every other character of the
    name. *)
Theorem new_audit_ref_has_no_space (now : Q) (company : string) :
  ~ In " "%char (list_ascii_of_string (AppNew.new_audit_ref now company)) /\
  (forall a, a <> " "%char -> In a (list_ascii_of_string company) ->
             In a (list_ascii_of_string (AppNew.new_audit_ref now company))).
Proof.
  unfold AppNew.new_audit_ref. rewrite !chars_app. split.
  - rewrite !in_app_iff. intros [H | [H | [H | H]]].
    + cbn in H. repeat destruct H as [H | H]; try discriminate H. exact H.
    + exact (str_no_space _ _ H eq_refl).
    + cbn in H. destruct H as [H | []]. discriminate H.
    + exact (remove_char_absent _ _ H).
  - intros a Hne Ha. rewrite !in_app_iff. right. right. right.
    apply remove_char_kept; assumption.
Qed.


(** X17.  For a non-negative loan and rule the rounded requirement of the
    second script is not negative, and it never differs by more than 0.005
    from the unrounded requirement the engine of the first script computes
    with the same rate. *)
Theorem required_credits_eur_close (self : t) (loan : Q) :
  0 <= loan -> 0 <= required_credits_per_1k self ->
  0 <= AppNew.required_credits_eur loan (required_credits_per_1k self) /\
  required_credits self loan - 0.005
  <= AppNew.required_credits_eur loan (required_credits_per_1k self)
  <= required_credits self loan + 0.005.
Proof.
  intros Hl Hr. unfold AppNew.required_credits_eur, required_credits.
  set (rate := required_credits_per_1k self) in *.
  assert (E : loan / 1000.0 * rate == loan / 1000 * rate).
  { rewrite div_thousand. reflexivity. }
  rewrite (round_eq _ _ 2 E).
  split.
  - apply (round_lb 0). unfold inject_Z.
    apply Qmult_le_0_compat; [| exact Hr].
    apply Qle_shift_div_l; [reflexivity | lra].
  - apply round_error_2.
Qed.

Lemma required_credits_eur_close_witness :
  0 <= 250 /\ 0 <= required_credits_per_1k default /\
  0 <= AppNew.required_credits_eur 250 (required_credits_per_1k default).
Proof.
  assert (H1 : 0 <= 250) by discriminate.
  assert (H2 : 0 <= required_credits_per_1k default) by discriminate.
  split; [exact H1 |]. split; [exact H2 |].
  exact (proj1 (required_credits_eur_close default 250 H1 H2)).
Defined.

(** ** Over-reporting *)

Lemma price_le (base_rate score score' : Q) :
  score <= score' -> price base_rate score <= price base_rate score'.
Proof.
  intros H. unfold price, PENALTY_RATE_STEP.
  destruct (Py.Qltb score 25) eqn:A1; destruct (Py.Qltb score 50) eqn:A2;
    destruct (Py.Qltb score 75) eqn:A3;
    destruct (Py.Qltb score' 25) eqn:B1; destruct (Py.Qltb score' 50) eqn:B2;
    destruct (Py.Qltb score' 75) eqn:B3; bool_facts; lra.
Qed.

(** X18.  For an engine with a positive tolerance, reporting more credits
    with everything else unchanged never yields a more favourable status
    and never a lower interest rate. *)
Theorem evaluate_antitone_in_reported (h1 h2 : Host) (self : t)
    (app : BorrowerApplication) (r' : Q) :
  0 < gap_tolerance self ->
  reported_credits app <= r' ->
  exists d1 self1' d2 self2',
    evaluate h1 self app = Ok (d1, self1') /\
    evaluate h2 self
      (mkBorrowerApplication (company_id app) (loan_requested app) r'
         (verified_credits app) (registry_source app) (project_type app)
         (meta app)) = Ok (d2, self2') /\
    (favorability (status d2) <= favorability (status d1))%nat /\
    interest_rate_apr d1 <= interest_rate_apr d2.
Proof.
  intros Hpos Hr.
  assert (Hnz : ~ gap_tolerance self == 0) by lra.
  set (app' := mkBorrowerApplication _ _ _ _ _ _ _).
  pose proof (greenwash_signals_ok self app) as Hs1.
  pose proof (greenwash_signals_ok self app') as Hs2.
  cbn [app' reported_credits verified_credits registry_source project_type] in Hs2.
  change (BiologyValidator.score app') with (BiologyValidator.score app) in Hs2.
  pose proof (registry_weight_range (registry_source app)) as Hrq.
  pose proof (project_weight_range (project_type app)) as Hpq.
  pose proof (bio_score_lower_bound app) as Hbio.
  set (g1 := if Py.Qltb 0 (verified_credits app) then _ else _) in Hs1.
  set (g2 := if Py.Qltb 0 (verified_credits app) then _ else _) in Hs2.
  set (rq := Py.get REGISTRY_QUALITY_WEIGHTS _ _) in *.
  set (pq := Py.get PROJECT_RISK_WEIGHTS _ _) in *.
  set (bio := BiologyValidator.score app) in *.
  pose proof (greenwashing_score_ok self (mkSignals g1 rq pq bio) Hnz) as Hg1.
  pose proof (greenwashing_score_ok self (mkSignals g2 rq pq bio) Hnz) as Hg2.
  set (tol := gap_tolerance self) in *.
  set (score1 := score_of tol (mkSignals g1 rq pq bio)) in *.
  set (score2 := score_of tol (mkSignals g2 rq pq bio)) in *.
  pose proof (evaluate_outcome h1 self app _ _ Hs1 Hg1) as He1.
  pose proof (evaluate_outcome h2 self app' _ _ Hs2 Hg2) as He2.
  assert (Hgap : g1 <= g2).
  { subst g1 g2. destruct (Py.Qltb 0 (verified_credits app)) eqn:E;
      [| apply Qle_refl]. bool_facts.
    assert ((reported_credits app - verified_credits app) / verified_credits app
            <= (r' - verified_credits app) / verified_credits app).
    { apply Qmult_le_compat_r; [lra |]. apply Qinv_le_0_compat. lra. }
    py_cases; lra. }
  assert (Hsc : score1 <= score2).
  { apply score_of_mono, gap_component_mono; assumption. }
  assert (Hub : score2 <= 62.32) by (apply score_of_upper; tauto).
  assert (Hp : price BASE_RATE score1 <= price BASE_RATE score2)
    by (apply price_le; exact Hsc).
  assert (Hp0 : 0 <= price BASE_RATE score1).
  { unfold price, BASE_RATE, PENALTY_RATE_STEP.
    repeat match goal with
           | |- context [if ?b then _ else _] => destruct b
           end; discriminate. }
  eexists _, _, _, _.
  split; [rewrite He1; apply f_equal, surjective_pairing |].
  split; [rewrite He2; apply f_equal, surjective_pairing |].
  rewrite !favorability_outcome. unfold outcome.
  cbn [app' loan_requested verified_credits gap]. fold tol.
  destruct (Qle_bool (required_credits self (loan_requested app))
                     (verified_credits app)) eqn:S1;
    destruct (Qle_bool g1 tol) eqn:O1; destruct (Qle_bool g2 tol) eqn:O2;
    destruct (Py.Qltb score1 50) eqn:A1; destruct (Py.Qltb score2 50) eqn:A2;
    destruct (Py.Qltb score1 75) eqn:B1; destruct (Py.Qltb score2 75) eqn:B2;
    cbn; bool_facts.
  all: try (exfalso; lra).
  all: split; [lia |]; try assumption; try apply Qle_refl.
Qed.

Lemma evaluate_antitone_in_reported_witness :
  0 < gap_tolerance default /\ reported_credits maersk <= 4000.0 /\
  exists d1 self1' d2 self2',
    evaluate host0 default maersk = Ok (d1, self1') /\
    evaluate host0 default
      (mkBorrowerApplication (company_id maersk) (loan_requested maersk) 4000.0
         (verified_credits maersk) (registry_source maersk)
         (project_type maersk) (meta maersk)) = Ok (d2, self2') /\
    (favorability (status d2) <= favorability (status d1))%nat /\
    interest_rate_apr d1 <= interest_rate_apr d2.
Proof.
  assert (H1 : 0 < gap_tolerance default) by reflexivity.
  assert (H2 : reported_credits maersk <= 4000.0) by discriminate.
  split; [exact H1 |]. split; [exact H2 |].
  exact (evaluate_antitone_in_reported host0 host0 default maersk 4000.0 H1 H2).
Defined.



